(** * openedx-webhooks: the JIRA webhook views

    A shallow embedding of [openedx_webhooks/views/jira.py]: the triage
    decision taken when an issue is created, the resolution of the pull
    request an issue is linked to, and the reactions to a status change
    (closing a rejected pull request, moving its status label).

    The views talk to two remote trackers through the [jira] and [github]
    sessions.  A view is embedded as a computation over a [World] that
    records every request sent, in order, and holds the two [@memoize]
    caches; the trackers' answers are given by an arbitrary function of the
    requests sent so far and of the request at hand.  Python exceptions are
    the [Raise] results of the computation. *)

From Stdlib Require Import String Ascii List ZArith Bool Lia DecimalString.
Import ListNotations.
Open Scope string_scope.

(** ** Python values and the runtime *)

(** What the interpreter supplies and the views rely on: [str.lower], the
    conversion [int(text)] ([None] when it raises [ValueError]), and the
    rendering of a list of texts and of a dict's keys by [str.format]. *)
Class PyRuntime := {
  lower : string -> string;
  int_of_text : string -> option Z;
  repr_list : list string -> string;
  repr_keys : list string -> string
}.

(** The value of a custom field of an issue, as decoded from JSON:
    [null], a text or a number. *)
Inductive PyVal :=
| PNone
| PStr (s : string)
| PInt (z : Z).

(** Truth value of a Python object, as tested by [if not x]. *)
Definition truthy (v : PyVal) : bool :=
  match v with
  | PNone => false
  | PStr s => negb (s =? "")
  | PInt z => negb (z =? 0)%Z
  end.

(** Truth value of the result of [github_pr_num]: [None] or an integer. *)
Definition truthy_num (n : option Z) : bool :=
  match n with
  | None => false
  | Some z => negb (z =? 0)%Z
  end.

Definition str_of_Z (z : Z) : string := NilZero.string_of_int (Z.to_int z).

(** [str.format] of a field value, and of the result of [github_pr_num]. *)
Definition py_str (v : PyVal) : string :=
  match v with
  | PNone => "None"
  | PStr s => s
  | PInt z => str_of_Z z
  end.

Definition format_num (n : option Z) : string :=
  match n with
  | None => "None"
  | Some z => str_of_Z z
  end.

Definition quote : string := String (ascii_of_nat 34) EmptyString.
Definition newline : string := String (ascii_of_nat 10) EmptyString.

(** Membership test [x in l] on a list of texts. *)
Definition py_in (x : string) (l : list string) : bool :=
  existsb (String.eqb x) l.

(** [list.remove(x)]: drops the first occurrence of [x]. *)
Fixpoint list_remove (x : string) (l : list string) : list string :=
  match l with
  | [] => []
  | y :: r => if x =? y then r else y :: list_remove x r
  end.

(** [str.replace(old, new)] for a non-empty [old]: every occurrence, left to
    right, without overlap.  [skip] counts the characters of a match that
    are still to be dropped. *)
Fixpoint replace_from (old new s : string) (skip : nat) : string :=
  match s with
  | EmptyString => EmptyString
  | String c r =>
      match skip with
      | S k => replace_from old new r k
      | O =>
          if String.prefix old s
          then new ++ replace_from old new r (String.length old - 1)
          else String c (replace_from old new r 0)
      end
  end.

Definition str_replace (old new s : string) : string :=
  replace_from old new s 0.

(** ** Dictionaries

    A [dict] with text keys, kept in insertion order: assigning to a key
    that is present keeps its place and replaces its value. *)
Module Dict.

Definition t (V : Type) : Type := list (string * V).

Fixpoint get {V} (k : string) (d : t V) : option V :=
  match d with
  | [] => None
  | (k', v) :: r => if k =? k' then Some v else get k r
  end.

Fixpoint set {V} (k : string) (v : V) (d : t V) : t V :=
  match d with
  | [] => [(k, v)]
  | (k', v') :: r => if k =? k' then (k, v) :: r else (k', v') :: set k v r
  end.

(** [dict(pairs)] and the dict comprehension [{k: v for ...}]. *)
Definition of_list {V} (l : list (string * V)) : t V :=
  fold_left (fun d kv => set (fst kv) (snd kv) d) l [].

Definition keys {V} (d : t V) : list string := map fst d.

Definition mem {V} (k : string) (d : t V) : bool :=
  match get k d with
  | Some _ => true
  | None => false
  end.

End Dict.

(** ** Data model *)

(** [URLObject]: scheme and host, path, query parameters. *)
Record URLObject := mkURL {
  origin : string;
  path : string;
  query : list (string * string)
}.

Definition with_path (u : URLObject) (p : string) : URLObject :=
  mkURL (origin u) p (query u).

Definition set_query_param (u : URLObject) (k v : string) : URLObject :=
  mkURL (origin u) (path u)
        (filter (fun kv => negb (fst kv =? k)) (query u) ++ [(k, v)])%list.

(** A JIRA issue as the webhook delivers it.  [issue_self] is
    [issue["self"]] and [creator_self] is [fields.creator.self], both
    already parsed ([URLObject(...)]); [issue_parent] is the key of
    [fields.parent] when the issue has one; [custom] holds the other
    entries of [fields], by field id. *)
Record Issue := mkIssue {
  issue_key : string;
  issue_self : URLObject;
  status_name : string;
  project_key : string;
  is_subtask : bool;
  creator_self : URLObject;
  creator_displayName : string;
  creator_name : string;
  issue_parent : option string;
  custom : Dict.t PyVal
}.

(** [issue["fields"].get(id)]. *)
Definition fields_get (issue : Issue) (id : string) : PyVal :=
  match Dict.get id (custom issue) with
  | Some v => v
  | None => PNone
  end.

(** One entry of a changelog: the field that changed, its value before and
    after. *)
Record ChangeItem := mkItem {
  field : string;
  fromString : string;
  toString : string
}.

Record Changelog := mkChangelog { items : list ChangeItem }.

(** The comment object of an event: its entries, by key, the "body" among
    them.  An object without entries is false when tested. *)
Record Comment := mkComment { comment_fields : Dict.t string }.

(** An "issue updated" event.  A changelog that is present is a JSON object
    with its items, hence true when tested; the empty object, which the view
    treats as an absent changelog, is [None]. *)
Record Event := mkEvent {
  event_issue : option Issue;
  event_comment : option Comment;
  event_changelog : option Changelog
}.

(** [comment = event.get("comment")] under the test [if comment:]: the
    comment object of the event when there is one and it is true. *)
Definition true_comment (event : Event) : option Comment :=
  match event_comment event with
  | Some comment =>
      match comment_fields comment with
      | [] => None
      | _ :: _ => Some comment
      end
  | None => None
  end.

Record Group := mkGroup { group_name : string; group_self : string }.
Record Transition := mkTransition { transition_name : string; transition_id : string }.
Record FieldDef := mkField { field_id : string; field_name : string; field_custom : bool }.
Record Label := mkLabel { label_name : string; label_url : string }.

(** The GitHub issue behind a pull request. *)
Record GhIssue := mkGhIssue {
  gh_state : string;
  gh_user_login : string;
  gh_labels : list Label
}.

(** ** Requests and responses *)

Inductive Session := jira | github.
Inductive Verb := GET | POST | PATCH | PUT.

Inductive Target :=
| Path (s : string)
| Url (u : URLObject).

(** The [json=] argument of a request. *)
Inductive JsonOut :=
| NoJson
| TransitionJson (id : string)
| CommentJson (body : string)
| StateJson (state : string)
| LabelsJson (labels : list string).

Record Request := mkRequest {
  session : Session;
  verb : Verb;
  target : Target;
  json_out : JsonOut
}.

(** What [response.json()] decodes to. *)
Inductive JsonIn :=
| UserJson (groups : list Group)
| TransitionsJson (transitions : list Transition)
| FieldsJson (fields : list FieldDef)
| IssueJson (issue : Issue)
| GhIssueJson (gh_issue : GhIssue)
| CatalogJson (labels : list Label)
| OtherJson.

Record Response := mkResponse {
  ok : bool;
  text : string;
  json : JsonIn
}.

Inductive Exn :=
| RequestException (msg : string)
| ValueError (msg : string)
| Exception (msg : string)
| KeyError (key : string)
| IndexError (msg : string)
| TypeError (msg : string).

Inductive Result (A : Type) :=
| Ok (a : A)
| Raise (e : Exn).
Arguments Ok {A} a.
Arguments Raise {A} e.

(** ** The world and the monad of the views *)

Record World := mkWorld {
  remote : list Request -> Request -> Response;
  calls : list Request;
  custom_fields_memo : option (Dict.t string);
  issue_memo : Dict.t Response
}.

Definition M (A : Type) : Type := World -> Result A * World.

Definition ret {A} (a : A) : M A := fun w => (Ok a, w).

Definition raise {A} (e : Exn) : M A := fun w => (Raise e, w).

Definition bind {A B} (m : M A) (f : A -> M B) : M B :=
  fun w =>
    match m w with
    | (Ok a, w') => f a w'
    | (Raise e, w') => (Raise e, w')
    end.

Notation "x <- m ;; k" := (bind m (fun x => k))
  (at level 61, m at next level, right associativity).

(** Sends a request: the tracker answers, the request is recorded. *)
Definition send (r : Request) : M Response :=
  fun w =>
    (Ok (remote w (calls w) r),
     mkWorld (remote w) (calls w ++ [r])%list (custom_fields_memo w) (issue_memo w)).

Definition request (s : Session) (v : Verb) (t : Target) (j : JsonOut) : M Response :=
  send (mkRequest s v t j).

(** [d[k]]. *)
Definition getitem {V} (d : Dict.t V) (k : string) : M V :=
  match Dict.get k d with
  | Some v => ret v
  | None => raise (KeyError k)
  end.

(** Reading a decoded response at the keys a view expects; a response of
    another shape has no such key. *)
Definition json_user (r : Response) : M (list Group) :=
  match json r with
  | UserJson gs => ret gs
  | _ => raise (KeyError "groups")
  end.

Definition json_transitions (r : Response) : M (list Transition) :=
  match json r with
  | TransitionsJson ts => ret ts
  | _ => raise (KeyError "transitions")
  end.

Definition json_fields (r : Response) : M (list FieldDef) :=
  match json r with
  | FieldsJson fs => ret fs
  | _ => raise (KeyError "id")
  end.

Definition json_gh_issue (r : Response) : M GhIssue :=
  match json r with
  | GhIssueJson g => ret g
  | _ => raise (KeyError "state")
  end.

(** [gh_issue["labels"]], read where the label branch first looks into the
    issue it has fetched. *)
Definition json_gh_labels (r : Response) : M (list Label) :=
  match json r with
  | GhIssueJson g => ret (gh_labels g)
  | _ => raise (KeyError "labels")
  end.

Definition json_labels (r : Response) : M (list Label) :=
  match json r with
  | CatalogJson ls => ret ls
  | _ => raise (KeyError "name")
  end.

(** Subscripting a response object, [resp[k]]: the class defines no item
    access, so the interpreter raises [TypeError] whatever the response
    holds. *)
Definition response_getitem (r : Response) (k : string) : M Issue :=
  raise (TypeError "'Response' object is not subscriptable").

(** ** Helpers imported by the views *)

(** [openedx_webhooks.utils.to_unicode], imported by the views: the texts of
    a decoded event are unicode already and come back as they are. *)
Definition to_unicode (s : string) : string := s.

(** Modelled from the spec: [openedx_webhooks.oauth.jira_get] is not among
    the sources.  It fetches from the tracker through the [jira] session and
    hands back the response object, on which its callers test [.ok] and call
    [.json()]; no call is retried by the core. *)
Definition jira_get (t : Target) : M Response :=
  request jira GET t NoJson.

Definition set_custom_fields_memo (d : Dict.t string) : M unit :=
  fun w => (Ok tt, mkWorld (remote w) (calls w) (Some d) (issue_memo w)).

Definition set_issue_memo (k : string) (r : Response) : M unit :=
  fun w => (Ok tt, mkWorld (remote w) (calls w) (custom_fields_memo w)
                           (Dict.set k r (issue_memo w))).

(** ** The views *)

(** The groups whose members may create issues that skip triage, with the
    projects they may do so in. *)
Definition exempt_groups : Dict.t (list string) :=
  [ ("edx-employees", ["ALL"]);
    ("clarice", ["MOB"]);
    ("bnotions", ["MOB"]) ].

(** The loop of [should_transition] over the creator's groups. *)
Fixpoint exempt_loop (project_key : string) (user_groups : list string) : bool :=
  match user_groups with
  | [] => false
  | user_group :: rest =>
      match Dict.get user_group exempt_groups with
      | None => exempt_loop project_key rest
      | Some exempt_projects =>
          if py_in "ALL" exempt_projects then true
          else if py_in project_key exempt_projects then true
          else exempt_loop project_key rest
      end
  end.

(** [get_jira_custom_fields]: the name-to-id mapping of the tracker's custom
    fields.  [pop_dict_id] splits a field into its id and the rest.

    Modelled from the spec: the [memoize] decorator of
    [openedx_webhooks.utils] is not among the sources.  The mapping is
    fetched on first use and cached for the lifetime of the process; a call
    that raises caches nothing. *)
Definition get_jira_custom_fields : M (Dict.t string) :=
  fun w =>
    match custom_fields_memo w with
    | Some d => (Ok d, w)
    | None =>
        (field_resp <- request jira GET (Path "/rest/api/2/field") NoJson ;;
         if negb (ok field_resp) then raise (RequestException (text field_resp))
         else
           fs <- json_fields field_resp ;;
           let field_map :=
             Dict.of_list (map (fun f => (field_id f, (field_name f, field_custom f))) fs) in
           let d :=
             Dict.of_list
               (map (fun iv => (fst (snd iv), fst iv))
                    (filter (fun iv => snd (snd iv)) field_map)) in
           _ <- set_custom_fields_memo d ;;
           ret d) w
    end.

(** [get_jira_issue], memoized by issue key in the same way: it returns
    what [jira_get] hands back, as it is. *)
Definition get_jira_issue (key : string) : M Response :=
  fun w =>
    match Dict.get key (issue_memo w) with
    | Some r => (Ok r, w)
    | None =>
        (r <- jira_get (Path ("/rest/api/2/issue/" ++ key)) ;;
         _ <- set_issue_memo key r ;;
         ret r) w
    end.

Section Views.

Context {py : PyRuntime}.

(** The report parser behind [jira_issue_comment_added], for a comment on
    an issue of the "COR" project: everything the view does after its
    project test. *)
Variable cert_info_update : Issue -> Comment -> M string.

Definition should_transition (issue : Issue) : M bool :=
  let issue_status := to_unicode (status_name issue) in
  let project_key := to_unicode (project_key issue) in
  if negb (issue_status =? "Needs Triage") then ret false
  else
    let is_subtask := is_subtask issue in
    if (project_key =? "OSPR") && negb is_subtask then ret false
    else
      let user_url := set_query_param (creator_self issue) "expand" "groups" in
      user_resp <- jira_get (Url user_url) ;;
      if negb (ok user_resp) then raise (RequestException (text user_resp))
      else
        groups <- json_user user_resp ;;
        let user_group_map :=
          Dict.of_list (map (fun g => (group_name g, group_self g)) groups) in
        let user_groups := Dict.keys user_group_map in
        ret (exempt_loop project_key user_groups).

Definition issue_opened (issue : Issue) : M string :=
  let issue_url := issue_self issue in
  go <- should_transition issue ;;
  transitioned <-
    (if go then
       let transitions_url := with_path issue_url (path issue_url ++ "/transitions") in
       transitions_resp <- jira_get (Url transitions_url) ;;
       if negb (ok transitions_resp)
       then raise (RequestException (text transitions_resp))
       else
         ts <- json_transitions transitions_resp ;;
         let transitions :=
           Dict.of_list (map (fun t => (transition_name t, transition_id t)) ts) in
         new_status <-
           (if Dict.mem "Open" transitions then ret "Open"
            else if Dict.mem "Design Backlog" transitions then ret "Design Backlog"
            else raise (ValueError ("No valid transition! Possibilities are "
                                      ++ repr_keys (Dict.keys transitions)))) ;;
         id <- getitem transitions new_status ;;
         transition_resp <- request jira POST (Url transitions_url) (TransitionJson id) ;;
         if negb (ok transition_resp)
         then raise (RequestException (text transition_resp))
         else ret true
     else ret false) ;;
  let action := if transitioned : bool then "Transitioned to Open" else "ignored" in
  ret action.

Definition github_pr_repo (issue : Issue) : M PyVal :=
  custom_fields <- get_jira_custom_fields ;;
  repo_id <- getitem custom_fields "Repo" ;;
  let pr_repo := fields_get issue repo_id in
  match issue_parent issue with
  | Some parent_key =>
      if negb (truthy pr_repo) then
        parent <- get_jira_issue parent_key ;;
        parent_issue <- response_getitem parent "fields" ;;
        ret (fields_get parent_issue repo_id)
      else ret pr_repo
  | None => ret pr_repo
  end.

(** [int(pr_num)] inside [try ... except: return None]. *)
Definition py_int (v : PyVal) : option Z :=
  match v with
  | PNone => None
  | PStr s => int_of_text s
  | PInt z => Some z
  end.

Definition github_pr_num (issue : Issue) : M (option Z) :=
  custom_fields <- get_jira_custom_fields ;;
  num_id <- getitem custom_fields "PR Number" ;;
  let pr_num := fields_get issue num_id in
  pr_num <-
    match issue_parent issue with
    | Some parent_key =>
        if negb (truthy pr_num) then
          parent <- get_jira_issue parent_key ;;
          parent_issue <- response_getitem parent "fields" ;;
          ret (fields_get parent_issue num_id)
        else ret pr_num
    | None => ret pr_num
    end ;;
  ret (py_int pr_num).

Definition github_pr_url (issue : Issue) : M string :=
  pr_repo <- github_pr_repo issue ;;
  pr_num <- github_pr_num issue ;;
  if negb (truthy pr_repo) || negb (truthy_num pr_num) then
    let issue_key := to_unicode (issue_key issue) in
    raise (Exception (issue_key ++ " is missing " ++ quote ++ "Repo" ++ quote
                        ++ " or " ++ quote ++ "PR Number" ++ quote ++ " fields"))
  else ret ("/repos/" ++ py_str pr_repo ++ "/pulls/" ++ format_num pr_num).

Definition jira_issue_rejected (issue : Issue) : M string :=
  let issue_key := to_unicode (issue_key issue) in
  pr_num <- github_pr_num issue ;;
  pr_url <- github_pr_url issue ;;
  let issue_url := str_replace "pulls" "issues" pr_url in
  gh_issue_resp <- request github GET (Path issue_url) NoJson ;;
  if negb (ok gh_issue_resp) then raise (RequestException (text gh_issue_resp))
  else
    gh_issue <- json_gh_issue gh_issue_resp ;;
    if gh_state gh_issue =? "closed" then
      let msg := issue_key ++ " was rejected, but PR #" ++ format_num pr_num
                   ++ " was already closed" in
      ret msg
    else
      let username := to_unicode (gh_user_login gh_issue) in
      let comment :=
        "Hello @" ++ username ++ ": We are unable to continue with "
          ++ "review of your submission at this time. Please see the "
          ++ "associated JIRA ticket for more explanation." in
      comment_resp <-
        request github POST (Path (issue_url ++ "/comments")) (CommentJson comment) ;;
      close_resp <- request github PATCH (Path pr_url) (StateJson "closed") ;;
      if negb (ok close_resp) || negb (ok comment_resp) then
        let bug_text := "" in
        let bug_text :=
          if negb (ok close_resp)
          then bug_text ++ "Failed to close; " ++ text close_resp
          else bug_text in
        let bug_text :=
          if negb (ok comment_resp)
          then bug_text ++ "Failed to comment on the PR; " ++ text comment_resp
          else bug_text in
        raise (RequestException bug_text)
      else ret ("Closed PR #" ++ format_num pr_num).

(** [[item for item in changelog["items"] if item["field"] == "status"]]. *)
Definition status_items (changelog : Changelog) : list ChangeItem :=
  filter (fun item => field item =? "status") (items changelog).

(** The map from a label's name in lower case to its name as it is on
    GitHub, built from the repository's labels. *)
Definition lower_index (labels : list Label) : Dict.t string :=
  let repo_labels := Dict.of_list (map (fun l => (label_name l, label_url l)) labels) in
  Dict.of_list (map (fun name => (lower name, name)) (Dict.keys repo_labels)).

(** The label of the old status: its name in the catalog, or the status
    itself when the catalog has none. *)
Definition old_label (repo_labels_lower : Dict.t string) (old_status : string) : string :=
  match Dict.get (lower old_status) repo_labels_lower with
  | Some name => name
  | None => old_status
  end.

(** The two updates of [pr_labels] in [jira_issue_status_changed]. *)
Definition replace_label (pr_labels : list string) (old_status_label new_status_label : string)
  : list string :=
  let pr_labels :=
    if py_in old_status_label pr_labels
    then list_remove old_status_label pr_labels
    else pr_labels in
  if negb (py_in new_status_label pr_labels)
  then (pr_labels ++ [new_status_label])%list
  else pr_labels.

Definition jira_issue_status_changed (issue : Issue) (changelog : Changelog) : M string :=
  pr_num <- github_pr_num issue ;;
  pr_repo <- github_pr_repo issue ;;
  pr_url <- github_pr_url issue ;;
  let issue_url := str_replace "pulls" "issues" pr_url in
  match status_items changelog with
  | [] => raise (IndexError "list index out of range")
  | status_changelog :: _ =>
      let old_status := fromString status_changelog in
      let new_status := toString status_changelog in
      gh_issue_resp <- request github GET (Path issue_url) NoJson ;;
      if negb (ok gh_issue_resp) then raise (RequestException (text gh_issue_resp))
      else
        repo_labels_resp <-
          request github GET (Path ("/repos/" ++ py_str pr_repo ++ "/labels")) NoJson ;;
        if negb (ok repo_labels_resp)
        then raise (RequestException (text repo_labels_resp))
        else
          labels <- json_labels repo_labels_resp ;;
          let repo_labels_lower := lower_index labels in
          issue_labels <- json_gh_labels gh_issue_resp ;;
          let pr_labels := map label_name issue_labels in
          let old_status_label := old_label repo_labels_lower old_status in
          new_status_label <- getitem repo_labels_lower (lower new_status) ;;
          let pr_labels := replace_label pr_labels old_status_label new_status_label in
          update_label_resp <-
            request github PATCH (Path issue_url) (LabelsJson pr_labels) ;;
          if negb (ok update_label_resp)
          then raise (RequestException (text update_label_resp))
          else ret ("Changed labels of PR #" ++ format_num pr_num ++ " to "
                      ++ repr_list pr_labels)
  end.

Definition jira_issue_comment_added (issue : Issue) (comment : Comment) : M string :=
  if negb (project_key issue =? "COR") then ret "I don't care"
  else cert_info_update issue comment.

(** What a view hands back: a text, or a text with a status code. *)
Inductive Reply :=
| Body (s : string)
| BodyStatus (s : string) (code : Z).

Definition jira_issue_updated (event : Event) : M Reply :=
  match event_issue event with
  | None => ret (BodyStatus "What is this shit!?" 400)
  | Some issue =>
      match true_comment event with
      | Some comment =>
          r <- jira_issue_comment_added issue comment ;;
          ret (Body r)
      | None =>
          if negb (project_key issue =? "OSPR") then ret (Body "I don't care")
          else if is_subtask issue then ret (Body "ignoring subtasks")
          else
            match event_changelog event with
            | None => ret (Body "I don't care")
            | Some changelog =>
                match status_items changelog with
                | [] => ret (Body "I don't care")
                | first :: _ =>
                    pr_repo <- github_pr_repo issue ;;
                    if negb (truthy pr_repo) then
                      let issue_key := to_unicode (issue_key issue) in
                      raise (Exception (issue_key ++ " is missing " ++ quote ++ "Repo"
                                          ++ quote ++ " field"))
                    else
                      repo_labels_resp <-
                        request github GET
                                (Path ("/repos/" ++ py_str pr_repo ++ "/labels")) NoJson ;;
                      if negb (ok repo_labels_resp)
                      then raise (RequestException (text repo_labels_resp))
                      else
                        labels <- json_labels repo_labels_resp ;;
                        let repo_labels_lower := lower_index labels in
                        let new_status := toString first in
                        changes1 <-
                          (if new_status =? "Rejected" then
                             change <- jira_issue_rejected issue ;;
                             ret [change]
                           else ret []) ;;
                        changes <-
                          (if Dict.mem (lower new_status) repo_labels_lower then
                             change <- jira_issue_status_changed issue changelog ;;
                             ret (changes1 ++ [change])%list
                           else ret changes1) ;;
                        match changes with
                        | [] => ret (Body "no change necessary")
                        | _ => ret (Body (String.concat newline changes))
                        end
                end
            end
      end
  end.

End Views.

(** ** Requests that change a tracker *)

Definition is_write (r : Request) : bool :=
  match verb r with
  | GET => false
  | _ => true
  end.

Definition writes (l : list Request) : list Request := filter is_write l.

(** The world once the requests [l] have been sent, in that order. *)
Definition sent (w : World) (l : list Request) : World :=
  mkWorld (remote w) (calls w ++ l)%list (custom_fields_memo w) (issue_memo w).

(** A computation that only reads from the trackers: whatever it sends is a
    [GET]. *)
Definition reads_only {A} (m : M A) : Prop :=
  forall w r w', m w = (r, w') ->
    exists l, calls w' = (calls w ++ l)%list /\ writes l = [].

(** ** A runtime for plain ASCII text *)

Definition lower_char (c : ascii) : ascii :=
  let n := nat_of_ascii c in
  if Nat.leb 65 n && Nat.leb n 90 then ascii_of_nat (n + 32) else c.

(** [str.lower] on ASCII text. *)
Fixpoint lower_ascii (s : string) : string :=
  match s with
  | EmptyString => EmptyString
  | String c r => String (lower_char c) (lower_ascii r)
  end.

Fixpoint digits_value (s : string) (acc : Z) : option Z :=
  match s with
  | EmptyString => Some acc
  | String c r =>
      let n := nat_of_ascii c in
      if Nat.leb 48 n && Nat.leb n 57
      then digits_value r (10 * acc + Z.of_nat (n - 48))%Z
      else None
  end.

Definition is_space (c : ascii) : bool :=
  let n := nat_of_ascii c in
  Nat.eqb n 32 || (Nat.leb 9 n && Nat.leb n 13).

Fixpoint lstrip (s : string) : string :=
  match s with
  | EmptyString => EmptyString
  | String c r => if is_space c then lstrip r else s
  end.

Fixpoint rstrip (s : string) : string :=
  match s with
  | EmptyString => EmptyString
  | String c r =>
      match rstrip r with
      | EmptyString => if is_space c then EmptyString else String c EmptyString
      | r' => String c r'
      end
  end.

Definition unsigned_value (s : string) : option Z :=
  match s with
  | EmptyString => None
  | _ => digits_value s 0
  end.

(** [int(text)] on ASCII decimal numerals: blanks around the numeral are
    dropped, a sign may come first, digits follow (no digit separators). *)
Definition int_of_ascii (s : string) : option Z :=
  match lstrip (rstrip s) with
  | EmptyString => None
  | String c r =>
      if (c =? "-")%char then option_map Z.opp (unsigned_value r)
      else if (c =? "+")%char then unsigned_value r
      else digits_value (String c r) 0
  end.

(** The rendering of a list of texts that hold neither quotes nor
    backslashes nor control characters. *)
Definition repr_ascii_list (l : list string) : string :=
  "[" ++ String.concat ", " (map (fun s => "'" ++ s ++ "'") l) ++ "]".

#[global] Instance ascii_runtime : PyRuntime := {|
  lower := lower_ascii;
  int_of_text := int_of_ascii;
  repr_list := repr_ascii_list;
  repr_keys := fun l => "dict_keys(" ++ repr_ascii_list l ++ ")"
|}.

(** ** Sample trackers *)

Module Sample.

Definition jira_url (p : string) : URLObject :=
  mkURL "https://openedx.atlassian.net" p [].

Definition repo_field : string := "customfield_10904".
Definition num_field : string := "customfield_10905".

Definition field_catalog : list FieldDef :=
  [ mkField "summary" "Summary" false;
    mkField repo_field "Repo" true;
    mkField num_field "PR Number" true ].

(** A contribution in review, linked to pull request 7. *)
Definition contribution (status : string) : Issue :=
  mkIssue "OSPR-1" (jira_url "/rest/api/2/issue/10001") status "OSPR" false
          (jira_url "/rest/api/2/user") "Robin" "robin" None
          [ (repo_field, PStr "edx/edx-platform"); (num_field, PInt 7) ].

(** A subtask of the contribution, without link fields of its own. *)
Definition subtask (status : string) : Issue :=
  mkIssue "OSPR-2" (jira_url "/rest/api/2/issue/10002") status "OSPR" true
          (jira_url "/rest/api/2/user") "Robin" "robin" (Some "OSPR-1") [].

(** An issue of another project. *)
Definition mobile_issue (status : string) : Issue :=
  mkIssue "MOB-4" (jira_url "/rest/api/2/issue/10004") status "MOB" false
          (jira_url "/rest/api/2/user") "Robin" "robin" None [].

Definition repo_labels : list Label :=
  [ mkLabel "bug" "https://api.github.com/repos/edx/edx-platform/labels/bug";
    mkLabel "Open" "https://api.github.com/repos/edx/edx-platform/labels/Open";
    mkLabel "Merged" "https://api.github.com/repos/edx/edx-platform/labels/Merged";
    mkLabel "rejected" "https://api.github.com/repos/edx/edx-platform/labels/rejected" ].

Definition pull_request (state : string) : GhIssue :=
  mkGhIssue state "robin"
            [ mkLabel "bug" "https://api.github.com/repos/edx/edx-platform/labels/bug";
              mkLabel "Open" "https://api.github.com/repos/edx/edx-platform/labels/Open" ].

Definition not_found : Response := mkResponse false "Not Found" OtherJson.

(** The answers of the two trackers.  The creator belongs to [groups]; the
    issue offers [offered]; the pull request is in [state]; posting a
    comment and closing succeed as [comment_ok] and [close_ok] say. *)
Definition answers (groups : list Group) (offered : list Transition) (state : string)
  (comment_ok close_ok : bool) (history : list Request) (r : Request) : Response :=
  match session r, verb r, target r with
  | jira, GET, Path p =>
      if p =? "/rest/api/2/field" then mkResponse true "" (FieldsJson field_catalog)
      else if p =? "/rest/api/2/issue/OSPR-1"
           then mkResponse true "" (IssueJson (contribution "Needs Triage"))
           else not_found
  | jira, GET, Url u =>
      if path u =? "/rest/api/2/user" then mkResponse true "" (UserJson groups)
      else if path u =? "/rest/api/2/issue/10004/transitions"
           then mkResponse true "" (TransitionsJson offered)
           else not_found
  | jira, POST, Url u => mkResponse true "" OtherJson
  | github, GET, Path p =>
      if p =? "/repos/edx/edx-platform/issues/7"
      then mkResponse true "" (GhIssueJson (pull_request state))
      else if p =? "/repos/edx/edx-platform/labels"
           then mkResponse true "" (CatalogJson repo_labels)
           else not_found
  | github, POST, Path p => mkResponse comment_ok "comment refused" OtherJson
  | github, PATCH, Path p =>
      match json_out r with
      | StateJson _ => mkResponse close_ok "close refused" OtherJson
      | _ => mkResponse true "" OtherJson
      end
  | _, _, _ => not_found
  end.

Definition world (groups : list Group) (offered : list Transition) (state : string)
  (comment_ok close_ok : bool) : World :=
  mkWorld (answers groups offered state comment_ok close_ok) [] None [].

Definition employee : list Group :=
  [ mkGroup "jira-users" "https://openedx.atlassian.net/rest/api/2/group?groupname=jira-users";
    mkGroup "edx-employees" "https://openedx.atlassian.net/rest/api/2/group?groupname=edx-employees" ].

Definition offered : list Transition :=
  [ mkTransition "Design Backlog" "21"; mkTransition "Open" "11" ].

(** The world once the directory of custom fields is cached. *)
Definition resolved (w : World) : World :=
  mkWorld (remote w)
          (calls w ++ [mkRequest jira GET (Path "/rest/api/2/field") NoJson])%list
          (Some [("Repo", repo_field); ("PR Number", num_field)])
          (issue_memo w).

Definition status_change (old_status new_status : string) : Changelog :=
  mkChangelog [ mkItem "assignee" "robin" "sam"; mkItem "status" old_status new_status ].

(** The report parser is of no concern here. *)
Definition no_report (issue : Issue) (comment : Comment) : M string :=
  ret "cert info updated".

End Sample.

(** ** The other views on issues *)

(** [jira_issue_created]: an event without an issue is junk, answered with
    status 400; otherwise the answer is the outcome of [issue_opened]. *)
Definition jira_issue_created {py : PyRuntime} (event : Event) : M Reply :=
  match event_issue event with
  | None => ret (BodyStatus "What is this shit!?" 400)
  | Some issue =>
      action <- issue_opened issue ;;
      ret (Body action)
  end.

(** A generator, as a [for] loop consumes it: it has stopped, or it yields
    an element and, once resumed, goes on with whatever it has to send. *)
#[warnings="-register-all"]
Inductive Gen (A : Type) : Type :=
| Stop
| Yield (a : A) (rest : M (Gen A)).
Arguments Stop {A}.
Arguments Yield {A} a rest.

(** The loop of [jira_rescan_issues]: each issue found is handed to
    [issue_opened] and its outcome is kept under the key of the issue. *)
Fixpoint rescan_loop {py : PyRuntime} (issues : Gen Issue) (results : Dict.t string)
  : M (Dict.t string) :=
  match issues with
  | Stop => ret results
  | Yield issue rest =>
      let issue_key := to_unicode (issue_key issue) in
      outcome <- issue_opened issue ;;
      issues <- rest ;;
      rescan_loop issues (Dict.set issue_key outcome results)
  end.

(** The issues a generator yields when nothing else happens between two of
    its steps. *)
Fixpoint drain {A} (g : Gen A) : M (list A) :=
  match g with
  | Stop => ret []
  | Yield a rest =>
      g <- rest ;;
      l <- drain g ;;
      ret (a :: l)
  end.

Definition default_jql : string :=
  "status = " ++ quote ++ "Needs Triage" ++ quote ++ " ORDER BY key".

(** What [jira_rescan_issues] hands back: the form, or the outcomes as JSON
    with a status code. *)
Inductive RescanReply :=
| Form (template : string)
| Outcomes (results : Dict.t string) (code : Z).

(** [jira_rescan_issues], for a request of the given method whose form holds
    [jql] if any.

    Modelled from the spec: the paginated fetch [jira_paginated_get] of
    [openedx_webhooks.utils] is not among the sources; the search it runs
    for a JQL query is the parameter [search], a generator of the issues
    found that may fetch further pages each time it is resumed. *)
Definition jira_rescan_issues {py : PyRuntime} (search : string -> M (Gen Issue))
    (method : Verb) (jql : option string) : M RescanReply :=
  match method with
  | GET => ret (Form "jira_rescan_issues.html")
  | _ =>
      let jql :=
        match jql with
        | Some q => if q =? "" then default_jql else q
        | None => default_jql
        end in
      issues <- search jql ;;
      results <- rescan_loop issues [] ;;
      ret (Outcomes results 200)
  end.

(** [old in s]: the text [old] occurs somewhere in [s]. *)
Fixpoint contains (old s : string) : bool :=
  match s with
  | EmptyString => String.prefix old s
  | String _ r => String.prefix old s || contains old r
  end.

(** The fetch of the tracker's fields by [get_jira_custom_fields]. *)
Definition fields_request : Request :=
  mkRequest jira GET (Path "/rest/api/2/field") NoJson.

(** ** What a computation writes *)

(** However [m] ends, its result and the requests it has sent that change a
    tracker, in order, satisfy [P]. *)
Definition yields {A} (P : Result A -> list Request -> Prop) (m : M A) : Prop :=
  forall w r w', m w = (r, w') ->
    exists l, calls w' = (calls w ++ l)%list /\ P r (writes l).

(** The only write is at most one patch of the labels of an issue. *)
Definition label_patch_at_most (ws : list Request) : Prop :=
  ws = [] \/
  exists url labels, ws = [mkRequest github PATCH (Path url) (LabelsJson labels)].

(** The writes are none, or a comment followed by a close. *)
Definition comment_and_close_at_most (ws : list Request) : Prop :=
  ws = [] \/
  exists url body url',
    ws = [ mkRequest github POST (Path url) (CommentJson body);
           mkRequest github PATCH (Path url') (StateJson "closed") ].

(** The only write is at most one post of a transition. *)
Definition transition_post_at_most (ws : list Request) : Prop :=
  ws = [] \/
  exists url id, ws = [mkRequest jira POST (Url url) (TransitionJson id)].

(** ** More sample data *)

Module Sample2.


Definition search_request : Request :=
  mkRequest jira GET (Path "/rest/api/2/search") NoJson.

(** A search that finds two issues already out of triage, one page each. *)
Definition search (jql : string) : M (Gen Issue) :=
  _ <- send search_request ;;
  ret (Yield (Sample.mobile_issue "Open")
         (_ <- send search_request ;;
          ret (Yield (Sample.contribution "Merged") (ret Stop)))).

End Sample2.

(** * Properties *)

(** ** Dictionaries *)

Module DictFacts.

Lemma get_app {V} (k : string) (d1 d2 : Dict.t V) :
  Dict.get k (d1 ++ d2)%list =
  match Dict.get k d1 with
  | Some v => Some v
  | None => Dict.get k d2
  end.
Proof.
  induction d1 as [|[k1 v1] d1 IH]; simpl; [reflexivity|].
  destruct (k =? k1); [reflexivity | exact IH].
Qed.

Lemma get_set {V} (k k' : string) (v : V) (d : Dict.t V) :
  Dict.get k (Dict.set k' v d) = if k =? k' then Some v else Dict.get k d.
Proof.
  induction d as [|[k1 v1] d IH]; simpl.
  - reflexivity.
  - destruct (k' =? k1) eqn:E1; simpl.
    + apply String.eqb_eq in E1; subst k1.
      destruct (k =? k'); reflexivity.
    + destruct (k =? k1) eqn:E2.
      * apply String.eqb_eq in E2; subst k1.
        rewrite String.eqb_sym, E1. reflexivity.
      * exact IH.
Qed.

Lemma get_fold {V} (l : list (string * V)) (d : Dict.t V) (k : string) :
  Dict.get k (fold_left (fun d kv => Dict.set (fst kv) (snd kv) d) l d) =
  match Dict.get k (rev l) with
  | Some v => Some v
  | None => Dict.get k d
  end.
Proof.
  revert d; induction l as [|[k1 v1] l IH]; intros d; simpl; [reflexivity|].
  rewrite IH, get_app, get_set; simpl.
  destruct (Dict.get k (rev l)); [reflexivity|].
  destruct (k =? k1); reflexivity.
Qed.

(** In a dict built from pairs, a key is bound to the value of its last
    pair. *)
Lemma get_of_list {V} (l : list (string * V)) (k : string) :
  Dict.get k (Dict.of_list l) = Dict.get k (rev l).
Proof.
  unfold Dict.of_list. rewrite get_fold.
  destruct (Dict.get k (rev l)); reflexivity.
Qed.

Lemma get_some_in {V} (d : Dict.t V) (k : string) (v : V) :
  Dict.get k d = Some v -> In (k, v) d.
Proof.
  induction d as [|[k1 v1] d IH]; simpl; [discriminate|].
  destruct (k =? k1) eqn:E.
  - apply String.eqb_eq in E; subst k1. intros H; injection H as ->. now left.
  - intros H; right; auto.
Qed.

Lemma get_none_iff {V} (d : Dict.t V) (k : string) :
  Dict.get k d = None <-> ~ In k (Dict.keys d).
Proof.
  induction d as [|[k1 v1] d IH]; simpl.
  - tauto.
  - destruct (k =? k1) eqn:E.
    + apply String.eqb_eq in E; subst k1. split; [discriminate | tauto].
    + apply String.eqb_neq in E. rewrite IH. split.
      * intros H [H1 | H1]; [congruence | tauto].
      * tauto.
Qed.

Lemma of_list_some {V} (l : list (string * V)) (k : string) (v : V) :
  Dict.get k (Dict.of_list l) = Some v -> In (k, v) l.
Proof.
  rewrite get_of_list. intros H. apply in_rev. now apply get_some_in.
Qed.

Lemma of_list_none {V} (l : list (string * V)) (k : string) :
  Dict.get k (Dict.of_list l) = None <-> ~ In k (map fst l).
Proof.
  rewrite get_of_list, get_none_iff. unfold Dict.keys.
  rewrite map_rev. split; intros H H1; apply H; [now apply -> in_rev | now apply in_rev].
Qed.

Lemma keys_of_list {V} (l : list (string * V)) (k : string) :
  In k (Dict.keys (Dict.of_list l)) <-> In k (map fst l).
Proof.
  destruct (Dict.get k (Dict.of_list l)) as [v|] eqn:E.
  - split; intros _.
    + apply of_list_some in E. apply in_map_iff. now exists (k, v).
    + destruct (in_dec string_dec k (Dict.keys (Dict.of_list l))) as [H | H];
        [exact H|]. apply get_none_iff in H. congruence.
  - split; intros H.
    + apply get_none_iff in E. tauto.
    + apply of_list_none in E. tauto.
Qed.

Lemma mem_of_list {V} (l : list (string * V)) (k : string) :
  Dict.mem k (Dict.of_list l) = true <-> In k (map fst l).
Proof.
  unfold Dict.mem.
  destruct (Dict.get k (Dict.of_list l)) as [v|] eqn:E.
  - split; intros _; [|reflexivity].
    apply of_list_some in E. apply in_map_iff. now exists (k, v).
  - apply of_list_none in E. split; [discriminate | tauto].
Qed.

End DictFacts.

(** ** Running a view *)

Lemma bind_ok {A B} (m : M A) (f : A -> M B) (w w' : World) (a : A) :
  m w = (Ok a, w') -> bind m f w = f a w'.
Proof. unfold bind; intros ->; reflexivity. Qed.

Lemma bind_raise {A B} (m : M A) (f : A -> M B) (w w' : World) (e : Exn) :
  m w = (Raise e, w') -> bind m f w = (Raise e, w').
Proof. unfold bind; intros ->; reflexivity. Qed.

Lemma request_run (s : Session) (v : Verb) (t : Target) (j : JsonOut) (w : World) :
  request s v t j w =
  (Ok (remote w (calls w) (mkRequest s v t j)), sent w [mkRequest s v t j]).
Proof. reflexivity. Qed.

Lemma sent_sent (w : World) (l1 l2 : list Request) :
  sent (sent w l1) l2 = sent w (l1 ++ l2).
Proof. unfold sent; simpl. now rewrite <- app_assoc. Qed.

Lemma py_in_iff (x : string) (l : list string) : py_in x l = true <-> In x l.
Proof.
  unfold py_in. rewrite existsb_exists. split.
  - intros [y [Hy E]]. apply String.eqb_eq in E. now subst.
  - intros H. exists x. split; [exact H | apply String.eqb_refl].
Qed.

Lemma append_empty_r (s : string) : s ++ "" = s.
Proof. induction s as [|c s IH]; simpl; [reflexivity | now rewrite IH]. Qed.

(** ** The triage decision *)

Lemma exempt_loop_true (pk : string) (user_groups : list string) :
  exempt_loop pk user_groups = true <->
  exists g, In g user_groups /\
    exists projects, Dict.get g exempt_groups = Some projects /\
      (In "ALL" projects \/ In pk projects).
Proof.
  induction user_groups as [|g rest IH]; cbn [exempt_loop In].
  - split; [discriminate | intros [g [[] _]]].
  - destruct (Dict.get g exempt_groups) as [projects|] eqn:E.
    + destruct (py_in "ALL" projects) eqn:Eall.
      { split; [intros _ | reflexivity].
        exists g. split; [now left|]. exists projects. split; [exact E|].
        left. now apply py_in_iff. }
      destruct (py_in pk projects) eqn:Epk.
      { split; [intros _ | reflexivity].
        exists g. split; [now left|]. exists projects. split; [exact E|].
        right. now apply py_in_iff. }
      rewrite IH. split.
      * intros [g' [Hin H]]. exists g'. split; [now right | exact H].
      * intros [g' [[-> | Hin] [projects' [E' H]]]].
        -- rewrite E in E'. injection E' as <-.
           destruct H as [H | H]; apply py_in_iff in H; congruence.
        -- exists g'. split; [exact Hin|]. now exists projects'.
    + rewrite IH. split.
      * intros [g' [Hin H]]. exists g'. split; [now right | exact H].
      * intros [g' [[-> | Hin] [projects' [E' H]]]]; [congruence|].
        exists g'. split; [exact Hin|]. now exists projects'.
Qed.

Section Triage.

Context {py : PyRuntime}.

(** C4.  An issue in "Needs Triage" that belongs to the OSPR project and is
    not a subtask is never transitioned automatically: [should_transition]
    answers [False] without asking the tracker for the creator's groups, so
    whatever these groups are, and [issue_opened] reports "ignored" without
    sending a request. *)
Theorem ospr_contribution_stays_in_triage (issue : Issue) (w : World) :
  status_name issue = "Needs Triage" ->
  project_key issue = "OSPR" ->
  is_subtask issue = false ->
  should_transition issue w = (Ok false, w) /\
  issue_opened issue w = (Ok "ignored", w).
Proof.
  intros Hs Hp Ht.
  assert (H : should_transition issue w = (Ok false, w)).
  { unfold should_transition, to_unicode. rewrite Hs, Hp, Ht. reflexivity. }
  split; [exact H|].
  unfold issue_opened. rewrite (bind_ok _ _ _ _ _ H). reflexivity.
Qed.

(** C5.  For an issue in "Needs Triage" that is a subtask of OSPR or belongs
    to another project, once the creator's groups are fetched,
    [should_transition] answers [True] (triage does not apply) exactly when
    one of these groups is in [exempt_groups] with "ALL" or with the project
    of the issue; otherwise it answers [False] (triage applies). *)
Theorem exemption_decides_triage (issue : Issue) (w : World) (groups : list Group) :
  status_name issue = "Needs Triage" ->
  project_key issue <> "OSPR" \/ is_subtask issue = true ->
  let fetch :=
    mkRequest jira GET (Url (set_query_param (creator_self issue) "expand" "groups")) NoJson in
  ok (remote w (calls w) fetch) = true ->
  json (remote w (calls w) fetch) = UserJson groups ->
  exists go : bool,
    should_transition issue w = (Ok go, sent w [fetch]) /\
    (go = true <->
     exists g, In g groups /\
       exists projects, Dict.get (group_name g) exempt_groups = Some projects /\
         (In "ALL" projects \/ In (project_key issue) projects)) /\
    (go = false <->
     forall g projects, In g groups ->
       Dict.get (group_name g) exempt_groups = Some projects ->
       ~ In "ALL" projects /\ ~ In (project_key issue) projects).
Proof.
  intros Hs Hp fetch Hok Hjson.
  set (user_groups :=
         Dict.keys (Dict.of_list (map (fun g => (group_name g, group_self g)) groups))).
  exists (exempt_loop (project_key issue) user_groups).
  assert (Hiff : exempt_loop (project_key issue) user_groups = true <->
     exists g, In g groups /\
       exists projects, Dict.get (group_name g) exempt_groups = Some projects /\
         (In "ALL" projects \/ In (project_key issue) projects)).
  { rewrite exempt_loop_true. unfold user_groups. split.
    - intros [name [Hin H]]. apply (proj1 (DictFacts.keys_of_list _ _)) in Hin.
      rewrite map_map in Hin. simpl in Hin. apply in_map_iff in Hin.
      destruct Hin as [g [<- Hg]]. now exists g.
    - intros [g [Hg H]]. exists (group_name g). split; [|exact H].
      apply (proj2 (DictFacts.keys_of_list _ _)). rewrite map_map. simpl.
      apply in_map_iff. now exists g. }
  split; [|split].
  - unfold should_transition, to_unicode. rewrite Hs. simpl.
    assert (Hguard : (project_key issue =? "OSPR") && negb (is_subtask issue) = false).
    { destruct Hp as [Hp | Hp].
      - apply String.eqb_neq in Hp. now rewrite Hp.
      - rewrite Hp. apply andb_false_r. }
    rewrite Hguard. unfold jira_get.
    rewrite (bind_ok _ _ _ _ _ (request_run _ _ _ _ _)).
    fold fetch. rewrite Hok. simpl.
    unfold json_user. rewrite Hjson. reflexivity.
  - exact Hiff.
  - destruct (exempt_loop (project_key issue) user_groups) eqn:E.
    + split; [discriminate|]. intros H.
      destruct (proj1 Hiff eq_refl) as [g [Hg [projects [Hget Hor]]]].
      destruct (H g projects Hg Hget). tauto.
    + split; [|reflexivity]. intros _ g projects Hg Hget.
      split; intros Hin.
      * assert (false = true) by (apply Hiff; exists g; split; [exact Hg|];
          exists projects; tauto). discriminate.
      * assert (false = true) by (apply Hiff; exists g; split; [exact Hg|];
          exists projects; tauto). discriminate.
Qed.

(** C6.  On an issue whose status is no longer "Needs Triage",
    [issue_opened] sends no request at all, hence no write and no fetch of
    the transitions, leaves the world as it was, and reports "ignored"; so do
    all its invocations on that issue, from any two worlds. *)
Theorem issue_opened_again_is_ignored (issue : Issue) :
  status_name issue <> "Needs Triage" ->
  (forall w, issue_opened issue w = (Ok "ignored", w)) /\
  (forall w w', fst (issue_opened issue w) = fst (issue_opened issue w')) /\
  (forall w, writes (calls (snd (issue_opened issue w))) = writes (calls w)).
Proof.
  intros Hs.
  assert (H : forall w, issue_opened issue w = (Ok "ignored", w)).
  { intros w. unfold issue_opened.
    assert (Hst : should_transition issue w = (Ok false, w)).
    { unfold should_transition, to_unicode.
      apply String.eqb_neq in Hs. rewrite Hs. reflexivity. }
    rewrite (bind_ok _ _ _ _ _ Hst). reflexivity. }
  split; [exact H|]. split.
  - intros w w'. now rewrite !H.
  - intros w. now rewrite H.
Qed.

End Triage.

(** ** Acting on the decision *)

Lemma writes_app (l1 l2 : list Request) : writes (l1 ++ l2) = (writes l1 ++ writes l2)%list.
Proof. apply filter_app. Qed.

Lemma in_transitions (ts : list Transition) (name id : string) :
  Dict.get name (Dict.of_list (map (fun t => (transition_name t, transition_id t)) ts))
    = Some id ->
  In (mkTransition name id) ts.
Proof.
  intros H. apply DictFacts.of_list_some in H. apply in_map_iff in H.
  destruct H as [[n i] [E Hin]]. simpl in E. now injection E as -> ->.
Qed.

Section Opened.

Context {py : PyRuntime}.

(** [should_transition] only reads: it sends at most the fetch of the
    creator's groups. *)
Lemma should_transition_reads_only (issue : Issue) (w w1 : World) (r : Result bool) :
  should_transition issue w = (r, w1) ->
  exists l, w1 = sent w l /\ writes l = [].
Proof.
  assert (Hnil : sent w [] = w).
  { unfold sent. rewrite app_nil_r. now destruct w. }
  unfold should_transition, to_unicode.
  destruct (negb (status_name issue =? "Needs Triage")).
  { intros H; injection H as _ <-. exists []. now rewrite Hnil. }
  destruct ((project_key issue =? "OSPR") && negb (is_subtask issue)).
  { intros H; injection H as _ <-. exists []. now rewrite Hnil. }
  unfold jira_get. rewrite (bind_ok _ _ _ _ _ (request_run _ _ _ _ _)).
  intros H.
  match goal with H : context [sent w [?q]] |- _ => exists [q] end.
  split; [|reflexivity].
  destruct (negb (ok _)).
  { now injection H as _ <-. }
  unfold bind, json_user, ret, raise in H.
  destruct (json _); now injection H as _ <-.
Qed.

(** C7.  When [should_transition] allows it, [issue_opened] fetches the
    transitions the issue offers.  If "Open" is offered, or else if "Design
    Backlog" is, it posts that transition, by the id it is offered under,
    and this post is the one write of the whole call; it reports the
    transition when the post succeeds.  If neither is offered it raises
    [ValueError] with a message that lists the names offered, and writes
    nothing. *)
Theorem issue_opened_selects_transition (issue : Issue) (w w1 : World) (ts : list Transition) :
  should_transition issue w = (Ok true, w1) ->
  let url := Url (with_path (issue_self issue) (path (issue_self issue) ++ "/transitions")) in
  let fetch := mkRequest jira GET url NoJson in
  ok (remote w1 (calls w1) fetch) = true ->
  json (remote w1 (calls w1) fetch) = TransitionsJson ts ->
  let offered := map transition_name ts in
  (forall name,
      name = "Open" \/ (name = "Design Backlog" /\ ~ In "Open" offered) ->
      In name offered ->
      exists id,
        In (mkTransition name id) ts /\
        let post := mkRequest jira POST url (TransitionJson id) in
        let answer := remote w1 (calls w1 ++ [fetch]) post in
        issue_opened issue w =
          (if ok answer then Ok "Transitioned to Open"
           else Raise (RequestException (text answer)),
           sent w1 [fetch; post]) /\
        writes (calls (snd (issue_opened issue w))) = (writes (calls w) ++ [post])%list) /\
  (~ In "Open" offered -> ~ In "Design Backlog" offered ->
   exists keys,
     (forall name, In name keys <-> In name offered) /\
     issue_opened issue w =
       (Raise (ValueError ("No valid transition! Possibilities are " ++ repr_keys keys)),
        sent w1 [fetch]) /\
     writes (calls (snd (issue_opened issue w))) = writes (calls w)).
Proof.
  intros Hgo url fetch Hok Hjson offered.
  destruct (should_transition_reads_only _ _ _ _ Hgo) as [pre [Hw1 Hpre]].
  set (transitions :=
         Dict.of_list (map (fun t => (transition_name t, transition_id t)) ts)).
  assert (Hmem : forall name, Dict.mem name transitions = true <-> In name offered).
  { intros name. unfold transitions, offered. rewrite DictFacts.mem_of_list.
    now rewrite map_map. }
  assert (Hrun : issue_opened issue w =
    bind (new_status <-
            (if Dict.mem "Open" transitions then ret "Open"
             else if Dict.mem "Design Backlog" transitions then ret "Design Backlog"
             else raise (ValueError ("No valid transition! Possibilities are "
                                       ++ repr_keys (Dict.keys transitions)))) ;;
          id <- getitem transitions new_status ;;
          transition_resp <- request jira POST url (TransitionJson id) ;;
          if negb (ok transition_resp)
          then raise (RequestException (text transition_resp))
          else ret true)
         (fun transitioned : bool =>
            ret (if transitioned then "Transitioned to Open" else "ignored"))
         (sent w1 [fetch])).
  { unfold issue_opened. rewrite (bind_ok _ _ _ _ _ Hgo).
    unfold jira_get. fold url.
    unfold bind at 1 2. rewrite request_run. fold fetch. rewrite Hok. simpl negb.
    cbv iota. unfold json_transitions. rewrite Hjson.
    unfold bind, ret. fold transitions.
    destruct (Dict.mem "Open" transitions); [reflexivity|].
    destruct (Dict.mem "Design Backlog" transitions); reflexivity. }
  assert (Hpost : forall name id,
    Dict.get name transitions = Some id ->
    (if Dict.mem "Open" transitions then ret "Open"
     else if Dict.mem "Design Backlog" transitions then ret "Design Backlog"
     else raise (ValueError ("No valid transition! Possibilities are "
                               ++ repr_keys (Dict.keys transitions))))
      (sent w1 [fetch]) = (Ok name, sent w1 [fetch]) ->
    let post := mkRequest jira POST url (TransitionJson id) in
    let answer := remote w1 (calls w1 ++ [fetch]) post in
    issue_opened issue w =
      (if ok answer then Ok "Transitioned to Open"
       else Raise (RequestException (text answer)),
       sent w1 [fetch; post]) /\
    writes (calls (snd (issue_opened issue w))) = (writes (calls w) ++ [post])%list).
  { intros name id Hget Hsel post answer.
    assert (E : issue_opened issue w =
      (if ok answer then Ok "Transitioned to Open"
       else Raise (RequestException (text answer)),
       sent w1 [fetch; post])).
    { rewrite Hrun. unfold bind at 1 2 3. rewrite Hsel.
      unfold getitem. rewrite Hget. unfold ret at 1.
      unfold bind at 1. rewrite request_run. rewrite sent_sent.
      change (calls (sent w1 [fetch])) with (calls w1 ++ [fetch])%list.
      change (remote (sent w1 [fetch])) with (remote w1).
      fold post. fold answer. simpl app.
      destruct (ok answer); reflexivity. }
    split; [exact E|].
    rewrite E. simpl snd. rewrite Hw1, sent_sent. simpl calls.
    rewrite !writes_app, Hpre. reflexivity. }
  split.
  - intros name Hname Hin.
    apply Hmem in Hin.
    assert (Hget : exists id, Dict.get name transitions = Some id).
    { unfold Dict.mem in Hin. destruct (Dict.get name transitions) as [id|];
        [now exists id | discriminate]. }
    destruct Hget as [id Hget]. exists id.
    split; [now apply in_transitions|].
    apply (Hpost name id Hget).
    destruct Hname as [-> | [-> Hno]].
    + now rewrite Hin.
    + destruct (Dict.mem "Open" transitions) eqn:Eo.
      * apply Hmem in Eo. contradiction.
      * now rewrite Hin.
  - intros Hno1 Hno2. exists (Dict.keys transitions).
    assert (E1 : Dict.mem "Open" transitions = false).
    { destruct (Dict.mem "Open" transitions) eqn:E; [|reflexivity].
      apply Hmem in E. contradiction. }
    assert (E2 : Dict.mem "Design Backlog" transitions = false).
    { destruct (Dict.mem "Design Backlog" transitions) eqn:E; [|reflexivity].
      apply Hmem in E. contradiction. }
    assert (E : issue_opened issue w =
      (Raise (ValueError ("No valid transition! Possibilities are "
                            ++ repr_keys (Dict.keys transitions))),
       sent w1 [fetch])).
    { rewrite Hrun, E1, E2. reflexivity. }
    split; [|split].
    + intros name. unfold transitions, offered.
      rewrite DictFacts.keys_of_list. now rewrite map_map.
    + exact E.
    + rewrite E. simpl snd. rewrite Hw1, sent_sent. simpl calls.
      rewrite !writes_app, Hpre, !app_nil_r. reflexivity.
Qed.

End Opened.

(** ** Link resolution *)

Lemma reads_only_ret {A} (a : A) : reads_only (ret a).
Proof.
  intros w r w' H. injection H as _ <-. exists []. now rewrite app_nil_r.
Qed.

Lemma reads_only_raise {A} (e : Exn) : reads_only (@raise A e).
Proof.
  intros w r w' H. injection H as _ <-. exists []. now rewrite app_nil_r.
Qed.

Lemma reads_only_bind {A B} (m : M A) (f : A -> M B) :
  reads_only m -> (forall a, reads_only (f a)) -> reads_only (bind m f).
Proof.
  intros Hm Hf w r w' H. unfold bind in H.
  destruct (m w) as [[a | e] w1] eqn:E.
  - destruct (Hm _ _ _ E) as [l1 [H1 W1]].
    destruct (Hf a _ _ _ H) as [l2 [H2 W2]].
    exists (l1 ++ l2)%list. split.
    + now rewrite H2, H1, app_assoc.
    + now rewrite writes_app, W1, W2.
  - injection H as _ <-. exact (Hm _ _ _ E).
Qed.

Lemma reads_only_get (s : Session) (t : Target) : reads_only (request s GET t NoJson).
Proof.
  intros w r w' H. rewrite request_run in H. injection H as _ <-.
  now exists [mkRequest s GET t NoJson].
Qed.

Lemma reads_only_if {A} (b : bool) (m1 m2 : M A) :
  reads_only m1 -> reads_only m2 -> reads_only (if b then m1 else m2).
Proof. now destruct b. Qed.

Lemma reads_only_getitem {V} (d : Dict.t V) (k : string) : reads_only (getitem d k).
Proof.
  unfold getitem. destruct (Dict.get k d); [apply reads_only_ret | apply reads_only_raise].
Qed.

Lemma reads_only_custom_fields : reads_only get_jira_custom_fields.
Proof.
  intros w r w'. unfold get_jira_custom_fields.
  destruct (custom_fields_memo w) as [d|].
  - apply (reads_only_ret d).
  - revert w r w'.
    change (reads_only
      (field_resp <- request jira GET (Path "/rest/api/2/field") NoJson ;;
       if negb (ok field_resp) then raise (RequestException (text field_resp))
       else
         fs <- json_fields field_resp ;;
         let field_map :=
           Dict.of_list (map (fun f => (field_id f, (field_name f, field_custom f))) fs) in
         let d :=
           Dict.of_list
             (map (fun iv => (fst (snd iv), fst iv))
                  (filter (fun iv => snd (snd iv)) field_map)) in
         _ <- set_custom_fields_memo d ;;
         ret d)).
    apply reads_only_bind; [apply reads_only_get|]. intros resp.
    apply reads_only_if; [apply reads_only_raise|].
    apply reads_only_bind.
    + unfold json_fields. destruct (json resp);
        first [apply reads_only_ret | apply reads_only_raise].
    + intros fs. cbv zeta. apply reads_only_bind; [|intros; apply reads_only_ret].
      intros w r w' H. injection H as _ <-. exists []. simpl. now rewrite app_nil_r.
Qed.

Lemma reads_only_jira_issue (key : string) : reads_only (get_jira_issue key).
Proof.
  intros w r w'. unfold get_jira_issue.
  destruct (Dict.get key (issue_memo w)) as [resp|].
  - apply (reads_only_ret resp).
  - revert w r w'.
    change (reads_only
      (r <- jira_get (Path ("/rest/api/2/issue/" ++ key)) ;;
       _ <- set_issue_memo key r ;;
       ret r)).
    apply reads_only_bind; [apply reads_only_get|]. intros resp.
    apply reads_only_bind; [|intros; apply reads_only_ret].
    intros w r w' H. injection H as _ <-. exists []. simpl. now rewrite app_nil_r.
Qed.

Section Links.

Context {py : PyRuntime}.

Lemma reads_only_pr_repo (issue : Issue) : reads_only (github_pr_repo issue).
Proof.
  unfold github_pr_repo.
  apply reads_only_bind; [apply reads_only_custom_fields|]. intros d.
  apply reads_only_bind; [apply reads_only_getitem|]. intros id.
  destruct (issue_parent issue); [|apply reads_only_ret].
  apply reads_only_if; [|apply reads_only_ret].
  apply reads_only_bind; [apply reads_only_jira_issue|]. intros resp.
  apply reads_only_bind; [apply reads_only_raise|]. intros; apply reads_only_ret.
Qed.

Lemma reads_only_pr_num (issue : Issue) : reads_only (github_pr_num issue).
Proof.
  unfold github_pr_num.
  apply reads_only_bind; [apply reads_only_custom_fields|]. intros d.
  apply reads_only_bind; [apply reads_only_getitem|]. intros id.
  apply reads_only_bind; [|intros; apply reads_only_ret].
  destruct (issue_parent issue); [|apply reads_only_ret].
  apply reads_only_if; [|apply reads_only_ret].
  apply reads_only_bind; [apply reads_only_jira_issue|]. intros resp.
  apply reads_only_bind; [apply reads_only_raise|]. intros; apply reads_only_ret.
Qed.

Lemma reads_only_pr_url (issue : Issue) : reads_only (github_pr_url issue).
Proof.
  unfold github_pr_url.
  apply reads_only_bind; [apply reads_only_pr_repo|]. intros repo.
  apply reads_only_bind; [apply reads_only_pr_num|]. intros num.
  apply reads_only_if; [apply reads_only_raise | apply reads_only_ret].
Qed.

(** Whenever an issue with a parent has no repository of its own, the
    fallback subscripts the response that [get_jira_issue] hands back, and
    [github_pr_repo] raises [TypeError]. *)
Lemma parent_fallback_raises (issue : Issue) (w : World) (d : Dict.t string)
    (id parent_key : string) :
  custom_fields_memo w = Some d ->
  Dict.get "Repo" d = Some id ->
  truthy (fields_get issue id) = false ->
  issue_parent issue = Some parent_key ->
  fst (github_pr_repo issue w) = Raise (TypeError "'Response' object is not subscriptable").
Proof.
  intros Hmemo Hid Hfalsy Hparent.
  unfold github_pr_repo.
  assert (E : get_jira_custom_fields w = (Ok d, w)).
  { unfold get_jira_custom_fields. now rewrite Hmemo. }
  rewrite (bind_ok _ _ _ _ _ E).
  unfold getitem at 1. rewrite Hid.
  unfold bind at 1, ret at 1. rewrite Hparent, Hfalsy. cbn [negb].
  destruct (get_jira_issue parent_key w) as [[resp | e] w1] eqn:Eg.
  - rewrite (bind_ok _ _ _ _ _ Eg). reflexivity.
  - exfalso. unfold get_jira_issue in Eg.
    destruct (Dict.get parent_key (issue_memo w)); [discriminate|].
    unfold bind, jira_get in Eg. rewrite request_run in Eg. discriminate.
Qed.

(** A pull-request number of the issue's own that [int] refuses resolves to
    [None]; nothing is raised. *)
Lemma github_pr_num_uncoercible (issue : Issue) (w : World) (d : Dict.t string) (id : string) :
  custom_fields_memo w = Some d ->
  Dict.get "PR Number" d = Some id ->
  truthy (fields_get issue id) = true \/ issue_parent issue = None ->
  py_int (fields_get issue id) = None ->
  github_pr_num issue w = (Ok None, w).
Proof.
  intros Hmemo Hid Hown Hint.
  unfold github_pr_num.
  assert (E : get_jira_custom_fields w = (Ok d, w)).
  { unfold get_jira_custom_fields. now rewrite Hmemo. }
  rewrite (bind_ok _ _ _ _ _ E).
  unfold getitem at 1. rewrite Hid.
  unfold bind at 1, ret at 1.
  assert (E2 : match issue_parent issue with
               | Some parent_key =>
                   if negb (truthy (fields_get issue id)) then
                     parent <- get_jira_issue parent_key ;;
                     parent_issue <- response_getitem parent "fields" ;;
                     ret (fields_get parent_issue id)
                   else ret (fields_get issue id)
               | None => ret (fields_get issue id)
               end w = (Ok (fields_get issue id), w)).
  { destruct Hown as [Ht | Hn]; [|now rewrite Hn].
    rewrite Ht. now destruct (issue_parent issue). }
  rewrite (bind_ok _ _ _ _ _ E2). unfold ret. now rewrite Hint.
Qed.


End Links.

(** C8.  A subtask without link fields of its own, whose parent carries the
    repository and the number: the tracker answers the fetch of the parent
    with these values, yet [github_pr_repo], [github_pr_num] and
    [github_pr_url] all raise [TypeError], having subscripted the response
    object itself. *)
Theorem subtask_link_resolution_raises :
  let w := Sample.world Sample.employee Sample.offered "open" true true in
  let parent := mkRequest jira GET (Path "/rest/api/2/issue/OSPR-1") NoJson in
  let type_error := TypeError "'Response' object is not subscriptable" in
  issue_parent (Sample.subtask "Open") = Some "OSPR-1" /\
  (exists issue,
     json (remote w [mkRequest jira GET (Path "/rest/api/2/field") NoJson] parent)
       = IssueJson issue /\
     fields_get issue Sample.repo_field = PStr "edx/edx-platform" /\
     fields_get issue Sample.num_field = PInt 7) /\
  fst (github_pr_repo (Sample.subtask "Open") w) = Raise type_error /\
  fst (github_pr_num (Sample.subtask "Open") w) = Raise type_error /\
  fst (github_pr_url (Sample.subtask "Open") w) = Raise type_error.
Proof.
  cbv zeta. split; [reflexivity|]. split.
  - eexists. split; [reflexivity|]. split; reflexivity.
  - repeat split; vm_compute; reflexivity.
Qed.

(** ** Rejection *)

Lemma write_free_gets (l : list Request) :
  writes l = [] -> forall q, In q l -> verb q = GET.
Proof.
  intros H q Hin.
  assert (Hw : ~ In q (writes l)) by (rewrite H; intros []).
  unfold writes in Hw. rewrite filter_In in Hw.
  unfold is_write in Hw. destruct (verb q); tauto.
Qed.

Section Rejection.

Context {py : PyRuntime}.

(** The run of [jira_issue_rejected] up to the answer about the pull
    request. *)
Lemma jira_issue_rejected_fetch (issue : Issue) (w w1 w2 : World) (num : option Z)
    (url : string) (g : GhIssue) :
  github_pr_num issue w = (Ok num, w1) ->
  github_pr_url issue w1 = (Ok url, w2) ->
  let issue_url := str_replace "pulls" "issues" url in
  let fetch := mkRequest github GET (Path issue_url) NoJson in
  ok (remote w2 (calls w2) fetch) = true ->
  json (remote w2 (calls w2) fetch) = GhIssueJson g ->
  jira_issue_rejected issue w =
    (if gh_state g =? "closed" then
       ret (issue_key issue ++ " was rejected, but PR #" ++ format_num num
              ++ " was already closed")
     else
       comment_resp <-
         request github POST (Path (issue_url ++ "/comments"))
           (CommentJson
              ("Hello @" ++ gh_user_login g ++ ": We are unable to continue with "
                 ++ "review of your submission at this time. Please see the "
                 ++ "associated JIRA ticket for more explanation.")) ;;
       close_resp <- request github PATCH (Path url) (StateJson "closed") ;;
       if negb (ok close_resp) || negb (ok comment_resp) then
         raise (RequestException
                  ((if negb (ok close_resp)
                    then "" ++ "Failed to close; " ++ text close_resp else "")
                     ++ (if negb (ok comment_resp)
                         then "Failed to comment on the PR; " ++ text comment_resp
                         else "")))
       else ret ("Closed PR #" ++ format_num num)) (sent w2 [fetch]).
Proof.
  intros Hnum Hurl issue_url fetch Hok Hjson.
  unfold jira_issue_rejected, to_unicode.
  rewrite (bind_ok _ _ _ _ _ Hnum), (bind_ok _ _ _ _ _ Hurl).
  fold issue_url.
  rewrite (bind_ok _ _ _ _ _ (request_run _ _ _ _ _)). fold fetch.
  rewrite Hok. cbn [negb]. unfold json_gh_issue. rewrite Hjson.
  unfold bind at 1, ret at 1.
  destruct (gh_state g =? "closed"); [reflexivity|].
  unfold bind.
  destruct (request github POST _ _ _) as [[comment_resp | e] w3]; [|reflexivity].
  destruct (request github PATCH _ _ _) as [[close_resp | e] w4]; [|reflexivity].
  destruct (ok close_resp), (ok comment_resp); cbn [negb orb];
    rewrite ?append_empty_r; reflexivity.
Qed.

(** C3.  When the pull request of a rejected issue is already closed on
    GitHub, [jira_issue_rejected] stops after reading its state: it returns
    the "already closed" message, and every request of the whole call is a
    [GET], so nothing is closed and no comment is posted. *)
Theorem rejected_when_already_closed (issue : Issue) (w w1 w2 : World) (num : option Z)
    (url : string) (g : GhIssue) :
  github_pr_num issue w = (Ok num, w1) ->
  github_pr_url issue w1 = (Ok url, w2) ->
  let fetch := mkRequest github GET (Path (str_replace "pulls" "issues" url)) NoJson in
  ok (remote w2 (calls w2) fetch) = true ->
  json (remote w2 (calls w2) fetch) = GhIssueJson g ->
  gh_state g = "closed" ->
  jira_issue_rejected issue w =
    (Ok (issue_key issue ++ " was rejected, but PR #" ++ format_num num
           ++ " was already closed"),
     sent w2 [fetch]) /\
  writes (calls (snd (jira_issue_rejected issue w))) = writes (calls w) /\
  (exists l, calls (snd (jira_issue_rejected issue w)) = (calls w ++ l)%list /\
             forall q, In q l -> verb q = GET).
Proof.
  intros Hnum Hurl fetch Hok Hjson Hclosed.
  assert (E : jira_issue_rejected issue w =
    (Ok (issue_key issue ++ " was rejected, but PR #" ++ format_num num
           ++ " was already closed"),
     sent w2 [fetch])).
  { rewrite (jira_issue_rejected_fetch _ _ _ _ _ _ _ Hnum Hurl Hok Hjson).
    rewrite Hclosed. reflexivity. }
  destruct (reads_only_pr_num _ _ _ _ Hnum) as [l1 [C1 W1]].
  destruct (reads_only_pr_url _ _ _ _ Hurl) as [l2 [C2 W2]].
  assert (Hcalls : calls (sent w2 [fetch]) = (calls w ++ (l1 ++ l2 ++ [fetch]))%list).
  { simpl. rewrite C2, C1, <- !app_assoc. reflexivity. }
  assert (Hw : writes (l1 ++ l2 ++ [fetch]) = []).
  { rewrite !writes_app, W1, W2. reflexivity. }
  split; [exact E|]. rewrite E. simpl snd. split.
  - rewrite Hcalls, writes_app, Hw. apply app_nil_r.
  - exists (l1 ++ l2 ++ [fetch])%list. split; [exact Hcalls|].
    now apply write_free_gets.
Qed.

(** C2.  When the pull request of a rejected issue is not closed yet,
    [jira_issue_rejected] posts the comment and then patches the pull
    request to closed, whatever the answer to the comment, and sends nothing
    after that.  If either answer is a failure it raises
    [RequestException] with the text of the close that failed followed by
    the text of the comment that failed; otherwise it reports the close. *)
Theorem rejection_attempts_comment_and_close (issue : Issue) (w w1 w2 : World)
    (num : option Z) (url : string) (g : GhIssue) :
  github_pr_num issue w = (Ok num, w1) ->
  github_pr_url issue w1 = (Ok url, w2) ->
  let issue_url := str_replace "pulls" "issues" url in
  let fetch := mkRequest github GET (Path issue_url) NoJson in
  ok (remote w2 (calls w2) fetch) = true ->
  json (remote w2 (calls w2) fetch) = GhIssueJson g ->
  gh_state g <> "closed" ->
  exists body,
    let comment := mkRequest github POST (Path (issue_url ++ "/comments")) (CommentJson body) in
    let close := mkRequest github PATCH (Path url) (StateJson "closed") in
    let comment_resp := remote w2 (calls w2 ++ [fetch]) comment in
    let close_resp := remote w2 (calls w2 ++ [fetch; comment]) close in
    snd (jira_issue_rejected issue w) = sent w2 [fetch; comment; close] /\
    (ok comment_resp = false \/ ok close_resp = false ->
     fst (jira_issue_rejected issue w) =
       Raise (RequestException
                ((if ok close_resp then "" else "Failed to close; " ++ text close_resp)
                   ++ (if ok comment_resp then ""
                       else "Failed to comment on the PR; " ++ text comment_resp)))) /\
    (ok comment_resp = true -> ok close_resp = true ->
     fst (jira_issue_rejected issue w) = Ok ("Closed PR #" ++ format_num num)).
Proof.
  intros Hnum Hurl issue_url fetch Hok Hjson Hopen.
  exists ("Hello @" ++ gh_user_login g ++ ": We are unable to continue with "
            ++ "review of your submission at this time. Please see the "
            ++ "associated JIRA ticket for more explanation.").
  intros comment close comment_resp close_resp.
  assert (E : jira_issue_rejected issue w =
    (if negb (ok close_resp) || negb (ok comment_resp) then
       Raise (RequestException
                ((if negb (ok close_resp)
                  then "" ++ "Failed to close; " ++ text close_resp else "")
                   ++ (if negb (ok comment_resp)
                       then "Failed to comment on the PR; " ++ text comment_resp
                       else "")))
     else Ok ("Closed PR #" ++ format_num num),
     sent w2 [fetch; comment; close])).
  { rewrite (jira_issue_rejected_fetch _ _ _ _ _ _ _ Hnum Hurl Hok Hjson).
    apply String.eqb_neq in Hopen. rewrite Hopen.
    fold issue_url. fold fetch.
    rewrite (bind_ok _ _ _ _ _ (request_run _ _ _ _ _)). fold comment.
    rewrite (bind_ok _ _ _ _ _ (request_run _ _ _ _ _)). fold close.
    rewrite !sent_sent. cbn [app].
    change (remote (sent w2 [fetch]) (calls (sent w2 [fetch])) comment)
      with comment_resp.
    change (remote (sent w2 [fetch; comment]) (calls (sent w2 [fetch; comment])) close)
      with close_resp.
    destruct (negb (ok close_resp) || negb (ok comment_resp)); reflexivity. }
  rewrite E. cbn [fst snd]. split; [reflexivity|]. split.
  - intros H.
    destruct (ok close_resp), (ok comment_resp); cbn [negb orb];
      try reflexivity; destruct H; discriminate.
  - intros -> ->. reflexivity.
Qed.

End Rejection.

(** ** Status labels *)

Lemma list_remove_in (x y : string) (l : list string) :
  In y (list_remove x l) -> In y l.
Proof.
  induction l as [|z l IH]; simpl; [tauto|].
  destruct (x =? z); simpl; [tauto|]. intros [H | H]; [now left | right; auto].
Qed.

Lemma list_remove_count (x y : string) (l : list string) :
  y <> x -> count_occ string_dec (list_remove x l) y = count_occ string_dec l y.
Proof.
  intros Hne. induction l as [|z l IH]; simpl; [reflexivity|].
  destruct (x =? z) eqn:E.
  - apply String.eqb_eq in E; subst z.
    destruct (string_dec x y); [congruence | reflexivity].
  - simpl. destruct (string_dec z y); [now rewrite IH | exact IH].
Qed.

Lemma list_remove_nodup (x : string) (l : list string) :
  NoDup l -> ~ In x (list_remove x l).
Proof.
  induction 1 as [|z l Hz Hnd IH]; simpl; [tauto|].
  destruct (x =? z) eqn:E.
  - apply String.eqb_eq in E; now subst z.
  - apply String.eqb_neq in E. simpl. intros [H | H]; [congruence | tauto].
Qed.

Lemma list_remove_absent (x : string) (l : list string) :
  ~ In x l -> list_remove x l = l.
Proof.
  induction l as [|z l IH]; simpl; [reflexivity|]. intros H.
  destruct (x =? z) eqn:E.
  - apply String.eqb_eq in E. subst z. tauto.
  - rewrite IH; [reflexivity | tauto].
Qed.

Lemma py_in_false (x : string) (l : list string) : py_in x l = false <-> ~ In x l.
Proof.
  rewrite <- py_in_iff. destruct (py_in x l); split; congruence.
Qed.

(** The label list after the replacement, told without the tests. *)
Lemma replace_label_spec (pr_labels : list string) (old new : string) :
  let removed := list_remove old pr_labels in
  (In new removed -> replace_label pr_labels old new = removed) /\
  (~ In new removed -> replace_label pr_labels old new = (removed ++ [new])%list).
Proof.
  cbv zeta. unfold replace_label.
  destruct (py_in old pr_labels) eqn:E.
  - split; intros H.
    + apply py_in_iff in H. now rewrite H.
    + apply py_in_false in H. now rewrite H.
  - apply py_in_false in E. rewrite (list_remove_absent _ _ E). split; intros H.
    + apply py_in_iff in H. now rewrite H.
    + apply py_in_false in H. now rewrite H.
Qed.

Lemma replace_label_adds (pr_labels : list string) (old new : string) :
  In new (replace_label pr_labels old new).
Proof.
  destruct (replace_label_spec pr_labels old new) as [H1 H2].
  destruct (in_dec string_dec new (list_remove old pr_labels)) as [H | H].
  - now rewrite (H1 H).
  - rewrite (H2 H). apply in_or_app. right. now left.
Qed.

Lemma replace_label_removes (pr_labels : list string) (old new : string) :
  NoDup pr_labels -> old <> new -> ~ In old (replace_label pr_labels old new).
Proof.
  intros Hnd Hne.
  destruct (replace_label_spec pr_labels old new) as [H1 H2].
  destruct (in_dec string_dec new (list_remove old pr_labels)) as [H | H].
  - rewrite (H1 H). now apply list_remove_nodup.
  - rewrite (H2 H). intros Hin. apply in_app_or in Hin. destruct Hin as [Hin | [Hin | []]].
    + now apply (list_remove_nodup old pr_labels).
    + congruence.
Qed.

Lemma replace_label_keeps (pr_labels : list string) (old new l : string) :
  l <> old -> l <> new ->
  count_occ string_dec (replace_label pr_labels old new) l = count_occ string_dec pr_labels l.
Proof.
  intros Ho Hn.
  destruct (replace_label_spec pr_labels old new) as [H1 H2].
  destruct (in_dec string_dec new (list_remove old pr_labels)) as [H | H].
  - rewrite (H1 H). now apply list_remove_count.
  - rewrite (H2 H), count_occ_app, list_remove_count by exact Ho.
    simpl. destruct (string_dec new l); [congruence | apply Nat.add_0_r].
Qed.

Lemma replace_label_only_adds (pr_labels : list string) (old new l : string) :
  In l (replace_label pr_labels old new) -> In l pr_labels \/ l = new.
Proof.
  destruct (replace_label_spec pr_labels old new) as [H1 H2].
  destruct (in_dec string_dec new (list_remove old pr_labels)) as [H | H].
  - rewrite (H1 H). intros Hin. left. now apply list_remove_in in Hin.
  - rewrite (H2 H). intros Hin. apply in_app_or in Hin.
    destruct Hin as [Hin | [Hin | []]]; [left | right; congruence].
    now apply list_remove_in in Hin.
Qed.

Lemma list_remove_keeps_nodup (x : string) (l : list string) :
  NoDup l -> NoDup (list_remove x l).
Proof.
  induction 1 as [|z l Hz Hnd IH]; simpl; [constructor|].
  destruct (x =? z); [exact Hnd|].
  constructor; [|exact IH]. intros H. apply Hz. now apply list_remove_in in H.
Qed.

Lemma list_remove_count_self (x : string) (l : list string) :
  count_occ string_dec (list_remove x l) x = count_occ string_dec l x - 1.
Proof.
  induction l as [|z l IH]; simpl; [reflexivity|].
  destruct (x =? z) eqn:E.
  - apply String.eqb_eq in E. subst z.
    destruct (string_dec x x); [simpl; apply eq_sym, Nat.sub_0_r | congruence].
  - apply String.eqb_neq in E. simpl.
    destruct (string_dec z x); [congruence | exact IH].
Qed.

(** The new label is added if absent only: it occurs once when it was not
    there, and as often as it was otherwise. *)
Lemma replace_label_count_new (pr_labels : list string) (old new : string) :
  count_occ string_dec (replace_label pr_labels old new) new =
  Nat.max 1 (count_occ string_dec (list_remove old pr_labels) new).
Proof.
  destruct (replace_label_spec pr_labels old new) as [H1 H2].
  destruct (in_dec string_dec new (list_remove old pr_labels)) as [H | H].
  - rewrite (H1 H). apply (count_occ_In string_dec) in H. lia.
  - rewrite (H2 H), count_occ_app. simpl.
    destruct (string_dec new new); [|congruence].
    apply (count_occ_not_In string_dec) in H. rewrite H. reflexivity.
Qed.

Lemma replace_label_count_old (pr_labels : list string) (old new : string) :
  old <> new ->
  count_occ string_dec (replace_label pr_labels old new) old =
  count_occ string_dec pr_labels old - 1.
Proof.
  intros Hne.
  destruct (replace_label_spec pr_labels old new) as [H1 H2].
  destruct (in_dec string_dec new (list_remove old pr_labels)) as [H | H].
  - rewrite (H1 H). apply list_remove_count_self.
  - rewrite (H2 H), count_occ_app, list_remove_count_self. simpl.
    destruct (string_dec new old); [congruence | apply Nat.add_0_r].
Qed.

Lemma replace_label_nodup (pr_labels : list string) (old new : string) :
  NoDup pr_labels -> NoDup (replace_label pr_labels old new).
Proof.
  intros Hnd. pose proof (list_remove_keeps_nodup old _ Hnd) as Hr.
  destruct (replace_label_spec pr_labels old new) as [H1 H2].
  destruct (in_dec string_dec new (list_remove old pr_labels)) as [H | H].
  - now rewrite (H1 H).
  - rewrite (H2 H). apply NoDup_app; [exact Hr | repeat constructor; intros [] |].
    intros x Hx [<- | []]. contradiction.
Qed.

Section Labels.

Context {py : PyRuntime}.

Lemma lower_index_some (labels : list Label) (k name : string) :
  Dict.get k (lower_index labels) = Some name ->
  In name (map label_name labels) /\ lower name = k.
Proof.
  unfold lower_index. intros H.
  apply DictFacts.of_list_some in H. apply in_map_iff in H.
  destruct H as [n [E Hin]]. injection E as E1 E2. subst n. split; [|exact E1].
  apply (proj1 (DictFacts.keys_of_list _ _)) in Hin.
  now rewrite map_map in Hin.
Qed.

Lemma lower_index_none (labels : list Label) (k : string) :
  Dict.get k (lower_index labels) = None ->
  forall name, In name (map label_name labels) -> lower name <> k.
Proof.
  unfold lower_index. intros H name Hin E.
  apply DictFacts.of_list_none in H. apply H.
  rewrite map_map. simpl. apply in_map_iff. exists name. split; [exact E|].
  apply (proj2 (DictFacts.keys_of_list _ _)). now rewrite map_map.
Qed.

(** The label of the old status is the catalog's label of that name, up to
    case, or the status as it is when the catalog has no such label. *)
Lemma old_label_spec (labels : list Label) (old_status : string) :
  let old := old_label (lower_index labels) old_status in
  (In old (map label_name labels) /\ lower old = lower old_status) \/
  (old = old_status /\
   forall name, In name (map label_name labels) -> lower name <> lower old_status).
Proof.
  cbv zeta. unfold old_label.
  destruct (Dict.get (lower old_status) (lower_index labels)) as [name|] eqn:E.
  - left. now apply lower_index_some.
  - right. split; [reflexivity|]. now apply lower_index_none.
Qed.

End Labels.

Section StatusChange.

Context {py : PyRuntime}.

(** C1.  For a status change whose new status has a label in the
    repository's catalog, [jira_issue_status_changed] reads the pull
    request's labels and the catalog and patches the issue once, with a
    label list [after] obtained from the current list [before] by a
    set-replace.  The old label is the catalog's label for the old status
    (matched by lower-cased name) or the old status itself when there is
    none; the new label is a catalog label, in the catalog's casing.  [after]
    holds the new label; it holds the old one no more (the labels of a pull
    request being distinct), unless old and new label are the same; every
    other label occurs as often as before, and nothing else is added.  The
    new label is added only if absent: it occurs as often as before, once if
    it was not there, and distinct labels stay distinct; of the old label
    one occurrence is removed.  In
    particular the labels "bug", "Open" become "bug", "Merged" on a change
    from "Open" to "Merged", "Merged" being a catalog label. *)
Theorem status_label_is_set_replace (issue : Issue) (changelog : Changelog)
    (w w1 w2 w3 : World) (num : option Z) (repo : PyVal) (url : string)
    (item : ChangeItem) (rest : list ChangeItem) (g : GhIssue) (labels : list Label) :
  github_pr_num issue w = (Ok num, w1) ->
  github_pr_repo issue w1 = (Ok repo, w2) ->
  github_pr_url issue w2 = (Ok url, w3) ->
  status_items changelog = item :: rest ->
  let issue_url := str_replace "pulls" "issues" url in
  let fetch := mkRequest github GET (Path issue_url) NoJson in
  let catalog := mkRequest github GET (Path ("/repos/" ++ py_str repo ++ "/labels")) NoJson in
  ok (remote w3 (calls w3) fetch) = true ->
  json (remote w3 (calls w3) fetch) = GhIssueJson g ->
  ok (remote w3 (calls w3 ++ [fetch]) catalog) = true ->
  json (remote w3 (calls w3 ++ [fetch]) catalog) = CatalogJson labels ->
  Dict.mem (lower (toString item)) (lower_index labels) = true ->
  let names := map label_name labels in
  let before := map label_name (gh_labels g) in
  exists old new after,
    snd (jira_issue_status_changed issue changelog w) =
      sent w3 [fetch; catalog; mkRequest github PATCH (Path issue_url) (LabelsJson after)] /\
    ((In old names /\ lower old = lower (fromString item)) \/
     (old = fromString item /\
      forall name, In name names -> lower name <> lower (fromString item))) /\
    (In new names /\ lower new = lower (toString item)) /\
    In new after /\
    (NoDup before -> old <> new -> ~ In old after) /\
    (forall l, l <> old -> l <> new ->
               count_occ string_dec after l = count_occ string_dec before l) /\
    (forall l, In l after -> In l before \/ l = new) /\
    (NoDup before -> NoDup after) /\
    (old <> new ->
     count_occ string_dec after new = Nat.max 1 (count_occ string_dec before new)) /\
    (old = new ->
     count_occ string_dec after new = Nat.max 1 (count_occ string_dec before new - 1)) /\
    (old <> new ->
     count_occ string_dec after old = count_occ string_dec before old - 1) /\
    (before = ["bug"; "Open"] ->
     fromString item = "Open" -> toString item = "Merged" ->
     In "Merged" names ->
     (forall name, In name names -> lower name = lower "Open" -> name = "Open") ->
     (forall name, In name names -> lower name = lower "Merged" -> name = "Merged") ->
     after = ["bug"; "Merged"]).
Proof.
  intros Hnum Hrepo Hurl Hitems issue_url fetch catalog Hok Hjson Hcok Hcjson Hmem
         names before.
  set (old := old_label (lower_index labels) (fromString item)).
  unfold Dict.mem in Hmem.
  destruct (Dict.get (lower (toString item)) (lower_index labels)) as [new|] eqn:Hnew;
    [clear Hmem | discriminate].
  exists old, new, (replace_label before old new).
  split; [|split; [|split; [|split; [|split; [|split; [|split;
    [|split; [|split; [|split; [|split]]]]]]]]]].
  - unfold jira_issue_status_changed.
    rewrite (bind_ok _ _ _ _ _ Hnum), (bind_ok _ _ _ _ _ Hrepo), (bind_ok _ _ _ _ _ Hurl).
    rewrite Hitems. fold issue_url.
    rewrite (bind_ok _ _ _ _ _ (request_run _ _ _ _ _)). fold fetch.
    rewrite Hok. cbn [negb].
    rewrite (bind_ok _ _ _ _ _ (request_run _ _ _ _ _)). fold catalog.
    change (remote (sent w3 [fetch]) (calls (sent w3 [fetch])) catalog)
      with (remote w3 (calls w3 ++ [fetch]) catalog).
    rewrite Hcok. cbn [negb]. unfold json_labels. rewrite Hcjson.
    unfold bind at 1, ret at 1.
    unfold json_gh_labels. rewrite Hjson. unfold bind at 1, ret at 1.
    unfold getitem. rewrite Hnew. unfold bind at 1, ret at 1.
    fold before. fold old.
    rewrite (bind_ok _ _ _ _ _ (request_run _ _ _ _ _)).
    rewrite !sent_sent. cbn [app].
    destruct (negb (ok _)); reflexivity.
  - apply old_label_spec.
  - now apply lower_index_some.
  - apply replace_label_adds.
  - apply replace_label_removes.
  - intros l. apply replace_label_keeps.
  - intros l. apply replace_label_only_adds.
  - apply replace_label_nodup.
  - intros Hne. rewrite replace_label_count_new.
    rewrite list_remove_count by (intros E; now apply Hne). reflexivity.
  - intros E. rewrite replace_label_count_new, E, list_remove_count_self. reflexivity.
  - apply replace_label_count_old.
  - intros Hbefore Hfrom Hto Hmerged Hopen Hmerged_only.
    assert (Eold : old = "Open").
    { destruct (old_label_spec labels (fromString item)) as [[Hin E] | [E _]];
        fold old in Hin, E || fold old in E.
      - rewrite Hfrom in E. now apply Hopen.
      - now rewrite E. }
    assert (Enew : new = "Merged").
    { destruct (lower_index_some _ _ _ Hnew) as [Hin E].
      rewrite Hto in E. now apply Hmerged_only. }
    rewrite Hbefore, Eold, Enew. reflexivity.
Qed.

End StatusChange.

(** ** Dispatch of an update *)

Lemma true_comment_none (event : Event) :
  event_comment event = None -> true_comment event = None.
Proof. unfold true_comment. now intros ->. Qed.

Lemma true_comment_some (event : Event) (comment : Comment) :
  event_comment event = Some comment ->
  comment_fields comment <> [] ->
  true_comment event = Some comment.
Proof.
  unfold true_comment. intros -> H.
  destruct (comment_fields comment); [now elim H | reflexivity].
Qed.

Section Updated.

Context {py : PyRuntime}.
Variable cert_info_update : Issue -> Comment -> M string.

Lemma status_items_first (changelog : Changelog) (first : ChangeItem) (rest : list ChangeItem) :
  status_items changelog = first :: rest ->
  status_items (mkChangelog [first]) = [first].
Proof.
  intros H.
  assert (Hin : In first (status_items changelog)) by (rewrite H; now left).
  unfold status_items in Hin. apply filter_In in Hin. destruct Hin as [_ Hf].
  unfold status_items. simpl. now rewrite Hf.
Qed.

(** The label branch reads the old and the new status off the first status
    item alone. *)
Lemma status_changed_first (issue : Issue) (changelog : Changelog)
    (first : ChangeItem) (rest : list ChangeItem) :
  status_items changelog = first :: rest ->
  jira_issue_status_changed issue changelog =
  jira_issue_status_changed issue (mkChangelog [first]).
Proof.
  intros H. unfold jira_issue_status_changed.
  rewrite (status_items_first _ _ _ H), H. reflexivity.
Qed.

(** The labels that the label branch patches the issue with: the current
    ones, with the label of [fromString] of the first status item replaced
    by that of its [toString]. *)
Lemma status_changed_sends (issue : Issue) (changelog : Changelog)
    (w w1 w2 w3 : World) (num : option Z) (repo : PyVal) (url : string)
    (first : ChangeItem) (rest : list ChangeItem) (g : GhIssue) (labels : list Label)
    (new : string) :
  github_pr_num issue w = (Ok num, w1) ->
  github_pr_repo issue w1 = (Ok repo, w2) ->
  github_pr_url issue w2 = (Ok url, w3) ->
  status_items changelog = first :: rest ->
  let issue_url := str_replace "pulls" "issues" url in
  let fetch := mkRequest github GET (Path issue_url) NoJson in
  let catalog := mkRequest github GET (Path ("/repos/" ++ py_str repo ++ "/labels")) NoJson in
  ok (remote w3 (calls w3) fetch) = true ->
  json (remote w3 (calls w3) fetch) = GhIssueJson g ->
  ok (remote w3 (calls w3 ++ [fetch]) catalog) = true ->
  json (remote w3 (calls w3 ++ [fetch]) catalog) = CatalogJson labels ->
  Dict.get (lower (toString first)) (lower_index labels) = Some new ->
  snd (jira_issue_status_changed issue changelog w) =
    sent w3 [fetch; catalog;
             mkRequest github PATCH (Path issue_url)
               (LabelsJson (replace_label (map label_name (gh_labels g))
                              (old_label (lower_index labels) (fromString first)) new))].
Proof.
  intros Hnum Hrepo Hurl Hitems issue_url fetch catalog Hok Hjson Hcok Hcjson Hnew.
  unfold jira_issue_status_changed.
  rewrite (bind_ok _ _ _ _ _ Hnum), (bind_ok _ _ _ _ _ Hrepo), (bind_ok _ _ _ _ _ Hurl).
  rewrite Hitems. fold issue_url.
  rewrite (bind_ok _ _ _ _ _ (request_run _ _ _ _ _)). fold fetch.
  rewrite Hok. cbn [negb].
  rewrite (bind_ok _ _ _ _ _ (request_run _ _ _ _ _)). fold catalog.
  change (remote (sent w3 [fetch]) (calls (sent w3 [fetch])) catalog)
    with (remote w3 (calls w3 ++ [fetch]) catalog).
  rewrite Hcok. cbn [negb]. unfold json_labels. rewrite Hcjson.
  unfold bind at 1, ret at 1.
  unfold json_gh_labels. rewrite Hjson. unfold bind at 1, ret at 1.
  unfold getitem. rewrite Hnew. unfold bind at 1, ret at 1.
  rewrite (bind_ok _ _ _ _ _ (request_run _ _ _ _ _)).
  rewrite !sent_sent. cbn [app].
  destruct (negb (ok _)); reflexivity.
Qed.

(** Past its tests, the view of a status change is the two branches, each
    under its condition on [toString] of the first status item. *)
Lemma status_change_dispatch (event : Event) (issue : Issue) (changelog : Changelog)
    (first : ChangeItem) (rest : list ChangeItem) (w w1 : World) (repo : PyVal)
    (labels : list Label) :
  event_issue event = Some issue ->
  event_comment event = None ->
  project_key issue = "OSPR" ->
  is_subtask issue = false ->
  event_changelog event = Some changelog ->
  status_items changelog = first :: rest ->
  github_pr_repo issue w = (Ok repo, w1) ->
  truthy repo = true ->
  let catalog := mkRequest github GET (Path ("/repos/" ++ py_str repo ++ "/labels")) NoJson in
  ok (remote w1 (calls w1) catalog) = true ->
  json (remote w1 (calls w1) catalog) = CatalogJson labels ->
  jira_issue_updated cert_info_update event w =
    (changes1 <-
       (if toString first =? "Rejected" then
          change <- jira_issue_rejected issue ;; ret [change]
        else ret []) ;;
     changes <-
       (if Dict.mem (lower (toString first)) (lower_index labels) then
          change <- jira_issue_status_changed issue changelog ;;
          ret (changes1 ++ [change])%list
        else ret changes1) ;;
     match changes with
     | [] => ret (Body "no change necessary")
     | _ => ret (Body (String.concat newline changes))
     end) (sent w1 [catalog]).
Proof.
  intros Hissue Hcomment Hp Hsub Hlog Hitems Hrepo Htruthy catalog Hok Hjson.
  unfold jira_issue_updated.
  rewrite Hissue, (true_comment_none _ Hcomment), Hp, Hsub, Hlog, Hitems.
  simpl (negb ("OSPR" =? "OSPR")). cbv iota.
  rewrite (bind_ok _ _ _ _ _ Hrepo). rewrite Htruthy. cbn [negb].
  rewrite (bind_ok _ _ _ _ _ (request_run _ _ _ _ _)). fold catalog.
  rewrite Hok. cbn [negb]. unfold json_labels. rewrite Hjson.
  reflexivity.
Qed.

(** C9, amended.  An update that carries a comment object with entries (one
    that is true when tested) is handed to [jira_issue_comment_added], whose
    outcome is the outcome of the view: the run is that of the comment view
    and of nothing else, whatever the changelog holds.  For an issue of the
    OSPR project in particular, not a single request is sent, so no pull
    request is closed, commented or relabelled. *)
Theorem comment_update_is_routed (event : Event) (issue : Issue) (comment : Comment)
    (w : World) :
  event_issue event = Some issue ->
  event_comment event = Some comment ->
  comment_fields comment <> [] ->
  jira_issue_updated cert_info_update event w =
    (match fst (jira_issue_comment_added cert_info_update issue comment w) with
     | Ok s => Ok (Body s)
     | Raise e => Raise e
     end,
     snd (jira_issue_comment_added cert_info_update issue comment w)) /\
  (project_key issue = "OSPR" ->
   jira_issue_updated cert_info_update event w = (Ok (Body "I don't care"), w)).
Proof.
  intros Hissue Hcomment Htrue.
  assert (E : jira_issue_updated cert_info_update event w =
    (match fst (jira_issue_comment_added cert_info_update issue comment w) with
     | Ok s => Ok (Body s)
     | Raise e => Raise e
     end,
     snd (jira_issue_comment_added cert_info_update issue comment w))).
  { unfold jira_issue_updated.
    rewrite Hissue, (true_comment_some _ _ Hcomment Htrue). unfold bind.
    destruct (jira_issue_comment_added cert_info_update issue comment w) as [[s | e] w'];
      reflexivity. }
  split; [exact E|].
  intros Hp. rewrite E. unfold jira_issue_comment_added. rewrite Hp. reflexivity.
Qed.

(** C10.  When the changelog of an update holds several status items, the
    first of them decides.  The later ones are ignored: both views behave as
    on the changelog reduced to the first status item.  The new status that
    the view of an update tests is [toString] of that item: the rejection
    runs exactly when it is "Rejected", the label branch exactly when it
    has a label in the catalog, and the outcome is that of the branches that
    ran.  The label branch takes the old status from [fromString] and the
    new one from [toString] of that item for the labels it sends. *)
Theorem first_status_item_decides (event : Event) (changelog : Changelog)
    (first : ChangeItem) (rest : list ChangeItem) :
  event_changelog event = Some changelog ->
  status_items changelog = first :: rest ->
  let reduced := mkChangelog [first] in
  let answer (run : Result string * World) : Result Reply * World :=
    (match fst run with
     | Ok outcome => Ok (Body outcome)
     | Raise e => Raise e
     end, snd run) in
  (forall issue w,
     jira_issue_status_changed issue changelog w =
     jira_issue_status_changed issue reduced w) /\
  (forall w,
     jira_issue_updated cert_info_update event w =
     jira_issue_updated cert_info_update
       (mkEvent (event_issue event) (event_comment event) (Some reduced)) w) /\
  (forall issue w w1 repo labels,
     event_issue event = Some issue ->
     event_comment event = None ->
     project_key issue = "OSPR" ->
     is_subtask issue = false ->
     github_pr_repo issue w = (Ok repo, w1) ->
     truthy repo = true ->
     let catalog :=
       mkRequest github GET (Path ("/repos/" ++ py_str repo ++ "/labels")) NoJson in
     ok (remote w1 (calls w1) catalog) = true ->
     json (remote w1 (calls w1) catalog) = CatalogJson labels ->
     let w2 := sent w1 [catalog] in
     let labelled := Dict.mem (lower (toString first)) (lower_index labels) in
     (toString first <> "Rejected" -> labelled = false ->
      jira_issue_updated cert_info_update event w
        = (Ok (Body "no change necessary"), w2)) /\
     (toString first = "Rejected" -> labelled = false ->
      jira_issue_updated cert_info_update event w
        = answer (jira_issue_rejected issue w2)) /\
     (toString first <> "Rejected" -> labelled = true ->
      jira_issue_updated cert_info_update event w
        = answer (jira_issue_status_changed issue changelog w2)) /\
     (toString first = "Rejected" -> labelled = true ->
      jira_issue_updated cert_info_update event w
        = match jira_issue_rejected issue w2 with
          | (Ok closed, w3) =>
              (match fst (jira_issue_status_changed issue changelog w3) with
               | Ok relabelled => Ok (Body (closed ++ newline ++ relabelled))
               | Raise e => Raise e
               end, snd (jira_issue_status_changed issue changelog w3))
          | (Raise e, w3) => (Raise e, w3)
          end)) /\
  (forall issue w w1 w2 w3 num repo url g labels new,
     github_pr_num issue w = (Ok num, w1) ->
     github_pr_repo issue w1 = (Ok repo, w2) ->
     github_pr_url issue w2 = (Ok url, w3) ->
     let issue_url := str_replace "pulls" "issues" url in
     let fetch := mkRequest github GET (Path issue_url) NoJson in
     let catalog :=
       mkRequest github GET (Path ("/repos/" ++ py_str repo ++ "/labels")) NoJson in
     ok (remote w3 (calls w3) fetch) = true ->
     json (remote w3 (calls w3) fetch) = GhIssueJson g ->
     ok (remote w3 (calls w3 ++ [fetch]) catalog) = true ->
     json (remote w3 (calls w3 ++ [fetch]) catalog) = CatalogJson labels ->
     Dict.get (lower (toString first)) (lower_index labels) = Some new ->
     snd (jira_issue_status_changed issue changelog w) =
       sent w3 [fetch; catalog;
                mkRequest github PATCH (Path issue_url)
                  (LabelsJson (replace_label (map label_name (gh_labels g))
                                 (old_label (lower_index labels) (fromString first))
                                 new))]).
Proof.
  intros Hlog Hitems reduced answer.
  split; [|split; [|split]].
  - intros issue w. now rewrite (status_changed_first _ _ _ _ Hitems).
  - intros w. unfold jira_issue_updated, true_comment.
    cbn [event_issue event_comment event_changelog].
    rewrite Hlog.
    destruct (event_issue event) as [issue|]; [|reflexivity].
    destruct (event_comment event) as [comment|].
    { destruct (comment_fields comment); [|reflexivity].
      destruct (negb (project_key issue =? "OSPR")); [reflexivity|].
      destruct (is_subtask issue); [reflexivity|].
      unfold reduced.
      rewrite (status_items_first _ _ _ Hitems), Hitems.
      rewrite (status_changed_first _ _ _ _ Hitems). reflexivity. }
    destruct (negb (project_key issue =? "OSPR")); [reflexivity|].
    destruct (is_subtask issue); [reflexivity|].
    unfold reduced.
    rewrite (status_items_first _ _ _ Hitems), Hitems.
    rewrite (status_changed_first _ _ _ _ Hitems). reflexivity.
  - intros issue w w1 repo labels Hissue Hcomment Hp Hsub Hrepo Htruthy catalog
           Hok Hjson w2 labelled.
    pose proof (status_change_dispatch event issue changelog first rest w w1 repo labels
                  Hissue Hcomment Hp Hsub Hlog Hitems Hrepo Htruthy Hok Hjson) as E.
    fold catalog in E. fold w2 in E.
    rewrite E. clear E. unfold labelled, answer, bind, ret.
    split; [|split; [|split]]; intros Hrej Hlab; rewrite Hlab.
    + apply String.eqb_neq in Hrej. now rewrite Hrej.
    + rewrite Hrej. cbn [String.eqb Ascii.eqb Bool.eqb].
      destruct (jira_issue_rejected issue w2) as [[closed | e] w3]; [|reflexivity].
      reflexivity.
    + apply String.eqb_neq in Hrej. rewrite Hrej.
      destruct (jira_issue_status_changed issue changelog w2) as [[relabelled | e] w3];
        [|reflexivity].
      reflexivity.
    + rewrite Hrej. cbn [String.eqb Ascii.eqb Bool.eqb].
      destruct (jira_issue_rejected issue w2) as [[closed | e] w3]; [|reflexivity].
      destruct (jira_issue_status_changed issue changelog w3) as [[relabelled | e] w4];
        reflexivity.
  - intros issue w w1 w2 w3 num repo url g labels new Hnum Hrepo Hurl
           issue_url fetch catalog Hok Hjson Hcok Hcjson Hnew.
    exact (status_changed_sends issue changelog w w1 w2 w3 num repo url first rest g labels
             new Hnum Hrepo Hurl Hitems Hok Hjson Hcok Hcjson Hnew).
Qed.

End Updated.

(** * The properties at work on the sample trackers *)

Lemma status_label_is_set_replace_witness :
  let w := Sample.world Sample.employee Sample.offered "open" true true in
  exists after,
    calls (snd (jira_issue_status_changed (Sample.contribution "Merged")
                  (Sample.status_change "Open" "Merged") w)) =
      [ mkRequest jira GET (Path "/rest/api/2/field") NoJson;
        mkRequest github GET (Path "/repos/edx/edx-platform/issues/7") NoJson;
        mkRequest github GET (Path "/repos/edx/edx-platform/labels") NoJson;
        mkRequest github PATCH (Path "/repos/edx/edx-platform/issues/7") (LabelsJson after) ] /\
    after = ["bug"; "Merged"].
Proof.
  intros w.
  destruct (status_label_is_set_replace (py := ascii_runtime)
              (Sample.contribution "Merged") (Sample.status_change "Open" "Merged")
              w (Sample.resolved w) (Sample.resolved w) (Sample.resolved w)
              (Some 7%Z) (PStr "edx/edx-platform") "/repos/edx/edx-platform/pulls/7"
              (mkItem "status" "Open" "Merged") [] (Sample.pull_request "open")
              Sample.repo_labels
              eq_refl eq_refl eq_refl eq_refl eq_refl eq_refl eq_refl eq_refl eq_refl)
    as (old & new & after & Hsent & _ & _ & _ & _ & _ & _ & _ & _ & _ & _ & Hex).
  exists after. split.
  - rewrite Hsent. reflexivity.
  - apply Hex; try reflexivity.
    + simpl. tauto.
    + intros name [<- | [<- | [<- | [<- | []]]]] E; vm_compute in E;
        first [reflexivity | discriminate].
    + intros name [<- | [<- | [<- | [<- | []]]]] E; vm_compute in E;
        first [reflexivity | discriminate].
Defined.

Lemma rejection_attempts_comment_and_close_witness :
  let w := Sample.world Sample.employee Sample.offered "open" true false in
  fst (jira_issue_rejected (Sample.contribution "Rejected") w) =
    Raise (RequestException "Failed to close; close refused") /\
  map verb (calls (snd (jira_issue_rejected (Sample.contribution "Rejected") w))) =
    [GET; GET; POST; PATCH].
Proof.
  intros w.
  assert (Hopen : gh_state (Sample.pull_request "open") <> "closed") by discriminate.
  destruct (rejection_attempts_comment_and_close (py := ascii_runtime)
              (Sample.contribution "Rejected")
              w (Sample.resolved w) (Sample.resolved w)
              (Some 7%Z) "/repos/edx/edx-platform/pulls/7" (Sample.pull_request "open")
              eq_refl eq_refl eq_refl eq_refl Hopen)
    as (body & Hsent & Hfail & _).
  split.
  - rewrite Hfail; [reflexivity | right; reflexivity].
  - rewrite Hsent. reflexivity.
Defined.

Lemma rejected_when_already_closed_witness :
  let w := Sample.world Sample.employee Sample.offered "closed" true true in
  fst (jira_issue_rejected (Sample.contribution "Rejected") w) =
    Ok "OSPR-1 was rejected, but PR #7 was already closed" /\
  writes (calls (snd (jira_issue_rejected (Sample.contribution "Rejected") w))) = [].
Proof.
  intros w.
  destruct (rejected_when_already_closed (py := ascii_runtime)
              (Sample.contribution "Rejected")
              w (Sample.resolved w) (Sample.resolved w)
              (Some 7%Z) "/repos/edx/edx-platform/pulls/7" (Sample.pull_request "closed")
              eq_refl eq_refl eq_refl eq_refl eq_refl)
    as (Hrun & Hwrites & _).
  split.
  - rewrite Hrun. reflexivity.
  - rewrite Hwrites. reflexivity.
Defined.

Lemma ospr_contribution_stays_in_triage_witness :
  let w := Sample.world Sample.employee Sample.offered "open" true true in
  should_transition (Sample.contribution "Needs Triage") w = (Ok false, w) /\
  issue_opened (Sample.contribution "Needs Triage") w = (Ok "ignored", w).
Proof.
  intros w.
  exact (ospr_contribution_stays_in_triage (py := ascii_runtime) (Sample.contribution "Needs Triage") w
           eq_refl eq_refl eq_refl).
Defined.

Lemma exemption_decides_triage_witness :
  let w := Sample.world Sample.employee Sample.offered "open" true true in
  fst (should_transition (Sample.mobile_issue "Needs Triage") w) = Ok true.
Proof.
  intros w.
  assert (Hp : project_key (Sample.mobile_issue "Needs Triage") <> "OSPR"
               \/ is_subtask (Sample.mobile_issue "Needs Triage") = true)
    by (left; discriminate).
  destruct (exemption_decides_triage (Sample.mobile_issue "Needs Triage") w
              Sample.employee eq_refl Hp eq_refl eq_refl)
    as (go & Hrun & Hexempt & _).
  rewrite Hrun. simpl. f_equal. apply Hexempt.
  exists (mkGroup "edx-employees"
            "https://openedx.atlassian.net/rest/api/2/group?groupname=edx-employees").
  split; [simpl; tauto|].
  exists ["ALL"]. split; [reflexivity | left; simpl; tauto].
Defined.

Lemma issue_opened_again_is_ignored_witness :
  let w := Sample.world Sample.employee Sample.offered "open" true true in
  issue_opened (Sample.mobile_issue "Open") w = (Ok "ignored", w).
Proof.
  intros w.
  assert (Hs : status_name (Sample.mobile_issue "Open") <> "Needs Triage") by discriminate.
  exact (proj1 (issue_opened_again_is_ignored (py := ascii_runtime) (Sample.mobile_issue "Open") Hs) w).
Defined.

Lemma issue_opened_selects_transition_witness :
  let w := Sample.world Sample.employee Sample.offered "open" true true in
  exists id,
    In (mkTransition "Open" id) Sample.offered /\
    fst (issue_opened (Sample.mobile_issue "Needs Triage") w) = Ok "Transitioned to Open" /\
    map json_out (writes (calls (snd (issue_opened (Sample.mobile_issue "Needs Triage") w))))
      = [TransitionJson id].
Proof.
  intros w.
  pose (fetch := mkRequest jira GET
                   (Url (set_query_param (Sample.jira_url "/rest/api/2/user") "expand" "groups"))
                   NoJson).
  destruct (issue_opened_selects_transition (py := ascii_runtime) (Sample.mobile_issue "Needs Triage")
              w (sent w [fetch]) Sample.offered eq_refl eq_refl eq_refl)
    as [Hsel _].
  destruct (Hsel "Open" (or_introl eq_refl)) as (id & Hin & Hrun & Hwrites).
  { simpl. tauto. }
  exists id. split; [exact Hin|]. split.
  - rewrite Hrun. reflexivity.
  - rewrite Hwrites. reflexivity.
Defined.

Lemma comment_update_is_routed_witness :
  let w := Sample.world Sample.employee Sample.offered "open" true true in
  let comment := mkComment [("body", "Not at this time.")] in
  let event := mkEvent (Some (Sample.contribution "Rejected")) (Some comment)
                       (Some (Sample.status_change "Open" "Rejected")) in
  jira_issue_updated Sample.no_report event w = (Ok (Body "I don't care"), w).
Proof.
  intros w comment event.
  assert (Htrue : comment_fields comment <> []) by discriminate.
  exact (proj2 (comment_update_is_routed (py := ascii_runtime) Sample.no_report event
                  (Sample.contribution "Rejected") comment w
                  eq_refl eq_refl Htrue) eq_refl).
Defined.

(** C9 as first stated fails on a comment object without entries: the event
    contains a comment object, yet the view does not hand it to the comment
    view; it goes on to the status change, comments on the pull request,
    closes it and patches its labels. *)
Lemma empty_comment_is_not_routed :
  let w := Sample.world Sample.employee Sample.offered "open" true true in
  let issue := Sample.contribution "Rejected" in
  let comment := mkComment [] in
  let event := mkEvent (Some issue) (Some comment)
                       (Some (Sample.status_change "Open" "Rejected")) in
  event_comment event = Some comment /\
  ~ (jira_issue_updated Sample.no_report event w =
       (match fst (jira_issue_comment_added Sample.no_report issue comment w) with
        | Ok s => Ok (Body s)
        | Raise e => Raise e
        end,
        snd (jira_issue_comment_added Sample.no_report issue comment w))) /\
  map verb (writes (calls (snd (jira_issue_updated Sample.no_report event w))))
    = [POST; PATCH; PATCH].
Proof.
  intros w issue comment event. split; [reflexivity|]. split.
  - intros H. apply (f_equal fst) in H. vm_compute in H. discriminate.
  - vm_compute. reflexivity.
Qed.

Lemma first_status_item_decides_witness :
  let w := Sample.world Sample.employee Sample.offered "open" true true in
  let changelog :=
    mkChangelog [ mkItem "status" "Open" "Merged"; mkItem "status" "Merged" "Rejected" ] in
  let event := mkEvent (Some (Sample.contribution "Rejected")) None (Some changelog) in
  fst (jira_issue_updated Sample.no_report event w)
    = Ok (Body "Changed labels of PR #7 to ['bug', 'Merged']") /\
  map json_out (writes (calls (snd (jira_issue_updated Sample.no_report event w))))
    = [LabelsJson ["bug"; "Merged"]].
Proof.
  intros w changelog event.
  pose (catalog := mkRequest github GET (Path "/repos/edx/edx-platform/labels") NoJson).
  pose (w2 := sent (Sample.resolved w) [catalog]).
  destruct (first_status_item_decides (py := ascii_runtime) Sample.no_report event changelog
              (mkItem "status" "Open" "Merged") [mkItem "status" "Merged" "Rejected"]
              eq_refl eq_refl)
    as (_ & _ & Hdispatch & Hlabels).
  destruct (Hdispatch (Sample.contribution "Rejected") w (Sample.resolved w)
              (PStr "edx/edx-platform") Sample.repo_labels
              eq_refl eq_refl eq_refl eq_refl eq_refl eq_refl eq_refl eq_refl)
    as (_ & _ & Hlabelled & _).
  assert (Hne : toString (mkItem "status" "Open" "Merged") <> "Rejected") by discriminate.
  rewrite (Hlabelled Hne eq_refl). split; [reflexivity|].
  change (map json_out
            (writes (calls (snd (jira_issue_status_changed
                                   (Sample.contribution "Rejected") changelog w2))))
          = [LabelsJson ["bug"; "Merged"]]).
  rewrite (Hlabels (Sample.contribution "Rejected") w2 w2 w2 w2 (Some 7%Z)
             (PStr "edx/edx-platform") "/repos/edx/edx-platform/pulls/7"
             (Sample.pull_request "open") Sample.repo_labels "Merged"
             eq_refl eq_refl eq_refl eq_refl eq_refl eq_refl eq_refl eq_refl).
  reflexivity.
Defined.

(** * Further properties of the views *)

(** ** The two caches *)

Lemma set_in {V} (k : string) (v : V) (d : Dict.t V) (p : string * V) :
  In p (Dict.set k v d) -> p = (k, v) \/ In p d.
Proof.
  induction d as [|[k1 v1] d IH]; simpl.
  - intros [H | []]. now left.
  - destruct (k =? k1); simpl.
    + intros [H | H]; [now left | right; now right].
    + intros [H | H]; [right; now left|].
      destruct (IH H) as [H1 | H1]; [now left | right; now right].
Qed.

Lemma of_list_in {V} (l : list (string * V)) (p : string * V) :
  In p (Dict.of_list l) -> In p l.
Proof.
  unfold Dict.of_list.
  assert (H : forall d, In p (fold_left (fun d kv => Dict.set (fst kv) (snd kv) d) l d) ->
                        In p l \/ In p d).
  { induction l as [|[k v] l IH]; intros d; simpl; [tauto|].
    intros Hin. destruct (IH _ Hin) as [H | H]; [tauto|].
    apply set_in in H. simpl in H.
    destruct H as [-> | H]; [left; now left | now right]. }
  intros Hin. destruct (H [] Hin) as [H1 | []]. exact H1.
Qed.

Lemma get_unique {V} (d : Dict.t V) (k : string) (v : V) :
  In (k, v) d -> (forall v', In (k, v') d -> v' = v) -> Dict.get k d = Some v.
Proof.
  induction d as [|[k1 v1] d IH]; simpl; [tauto|].
  intros Hin Huniq. destruct (k =? k1) eqn:E.
  - apply String.eqb_eq in E. subst k1. f_equal. apply Huniq. now left.
  - apply String.eqb_neq in E. apply IH.
    + destruct Hin as [H | H]; [congruence | exact H].
    + intros v' H. apply Huniq. now right.
Qed.

Lemma of_list_unique {V} (l : list (string * V)) (k : string) (v : V) :
  In (k, v) l -> (forall v', In (k, v') l -> v' = v) ->
  Dict.get k (Dict.of_list l) = Some v.
Proof.
  intros Hin Huniq. rewrite DictFacts.get_of_list. apply get_unique.
  - now apply -> in_rev.
  - intros v' H. apply Huniq. now apply in_rev.
Qed.

(** X1.  The directory of custom fields is fetched once: after a call of
    [get_jira_custom_fields] that succeeds, every later call returns the
    same mapping and leaves the world alone, so sends nothing.  A call that
    raises has sent the one fetch and cached nothing, so the next call
    fetches again. *)
Theorem custom_fields_fetched_once (w w1 : World) (r : Result (Dict.t string)) :
  get_jira_custom_fields w = (r, w1) ->
  match r with
  | Ok d =>
      (calls w1 = calls w \/ calls w1 = (calls w ++ [fields_request])%list) /\
      forall w2, custom_fields_memo w2 = custom_fields_memo w1 ->
                 get_jira_custom_fields w2 = (Ok d, w2)
  | Raise e =>
      custom_fields_memo w1 = None /\ calls w1 = (calls w ++ [fields_request])%list
  end.
Proof.
  unfold get_jira_custom_fields.
  destruct (custom_fields_memo w) as [d|] eqn:Hmemo.
  - intros H. injection H as <- <-. split; [now left|].
    intros w2 H2. now rewrite H2, Hmemo.
  - unfold bind at 1. rewrite request_run. fold fields_request.
    destruct (negb (ok (remote w (calls w) fields_request))).
    { intros H. injection H as <- <-. split; [exact Hmemo | reflexivity]. }
    unfold bind at 1, json_fields.
    destruct (json (remote w (calls w) fields_request));
      try (intros H; injection H as <- <-; split; [exact Hmemo | reflexivity]).
    intros H. injection H as <- <-. split; [now right|].
    intros w2 H2. now rewrite H2.
Qed.

(** X2.  The directory maps names to custom fields only: each entry is the
    name and id of a field that the tracker lists as custom.  A custom field
    whose id and whose name no other listed field bears is in it under its
    name. *)
Theorem custom_fields_are_custom (w : World) (fs : list FieldDef) :
  custom_fields_memo w = None ->
  ok (remote w (calls w) fields_request) = true ->
  json (remote w (calls w) fields_request) = FieldsJson fs ->
  exists d w1,
    get_jira_custom_fields w = (Ok d, w1) /\
    (forall name id, Dict.get name d = Some id -> In (mkField id name true) fs) /\
    (forall f, In f fs -> field_custom f = true ->
       (forall f', In f' fs ->
          field_id f' = field_id f \/ field_name f' = field_name f -> f' = f) ->
       Dict.get (field_name f) d = Some (field_id f)).
Proof.
  intros Hmemo Hok Hjson.
  set (field_map :=
         Dict.of_list (map (fun f => (field_id f, (field_name f, field_custom f))) fs)).
  set (d := Dict.of_list
              (map (fun iv : string * (string * bool) => (fst (snd iv), fst iv))
                   (filter (fun iv : string * (string * bool) => snd (snd iv)) field_map))).
  exists d, (mkWorld (remote w) (calls w ++ [fields_request])%list (Some d) (issue_memo w)).
  split; [|split].
  - unfold get_jira_custom_fields. rewrite Hmemo.
    unfold bind at 1. rewrite request_run. fold fields_request.
    rewrite Hok. cbn [negb]. unfold bind at 1, json_fields. rewrite Hjson.
    reflexivity.
  - intros name id Hget. unfold d in Hget.
    apply DictFacts.of_list_some in Hget. apply in_map_iff in Hget.
    destruct Hget as [[id' [name' c]] [E Hin]]. simpl in E. injection E as -> ->.
    apply filter_In in Hin. destruct Hin as [Hin Hc]. simpl in Hc. subst c.
    apply of_list_in in Hin. apply in_map_iff in Hin.
    destruct Hin as [[i n c] [E Hin]]. simpl in E. now injection E as -> -> ->.
  - intros f Hf Hcustom Huniq.
    assert (Hmap : forall v, In (field_id f, v) (map (fun f => (field_id f, (field_name f, field_custom f))) fs) ->
                             v = (field_name f, true)).
    { intros v Hin. apply in_map_iff in Hin. destruct Hin as [f' [E Hin]].
      injection E as E1 E2. subst v.
      rewrite (Huniq f' Hin (or_introl E1)). now rewrite Hcustom. }
    assert (Hfm : In (field_id f, (field_name f, true)) field_map).
    { apply DictFacts.get_some_in. unfold field_map. apply of_list_unique.
      - apply in_map_iff. exists f. split; [now rewrite Hcustom | exact Hf].
      - exact Hmap. }
    unfold d. apply of_list_unique.
    + apply in_map_iff. exists (field_id f, (field_name f, true)). split; [reflexivity|].
      apply filter_In. split; [exact Hfm | reflexivity].
    + intros id' Hin. apply in_map_iff in Hin.
      destruct Hin as [[i [n c]] [E Hin]]. simpl in E. injection E as -> ->.
      apply filter_In in Hin. destruct Hin as [Hin _].
      apply of_list_in in Hin. apply in_map_iff in Hin.
      destruct Hin as [f' [E Hin]]. injection E as E1 E2 E3.
      rewrite (Huniq f' Hin (or_intror E2)) in E1. now symmetry.
Qed.

(** X3.  [get_jira_issue] never raises and keeps whatever the tracker
    answered, a failure as well: later calls for the same key return that
    very response and send nothing. *)
Theorem jira_issue_fetched_once (key : string) (w : World) :
  exists resp w1,
    get_jira_issue key w = (Ok resp, w1) /\
    forall w2, Dict.get key (issue_memo w2) = Dict.get key (issue_memo w1) ->
               get_jira_issue key w2 = (Ok resp, w2).
Proof.
  unfold get_jira_issue.
  destruct (Dict.get key (issue_memo w)) as [resp|] eqn:Hmemo.
  - exists resp, w. split; [reflexivity|]. intros w2 H2. now rewrite H2, Hmemo.
  - unfold jira_get, bind at 1. rewrite request_run.
    eexists. eexists. split; [reflexivity|].
    intros w2 H2. rewrite H2. simpl. rewrite DictFacts.get_set, String.eqb_refl.
    reflexivity.
Qed.

(** ** Links, decisions and labels *)

(** X4.  For an issue that carries a repository and a pull-request number
    of its own, with the directory of custom fields at hand, the link is
    resolved from the issue alone: nothing is sent, the parent is not looked
    at even if there is one, and the URL is [/repos/<repo>/pulls/<number>]. *)
Theorem link_of_own_fields {py : PyRuntime} (issue : Issue) (w : World)
    (d : Dict.t string) (rid nid : string) (n : Z) :
  custom_fields_memo w = Some d ->
  Dict.get "Repo" d = Some rid ->
  Dict.get "PR Number" d = Some nid ->
  truthy (fields_get issue rid) = true ->
  truthy (fields_get issue nid) = true ->
  py_int (fields_get issue nid) = Some n ->
  n <> 0%Z ->
  github_pr_repo issue w = (Ok (fields_get issue rid), w) /\
  github_pr_num issue w = (Ok (Some n), w) /\
  github_pr_url issue w =
    (Ok ("/repos/" ++ py_str (fields_get issue rid) ++ "/pulls/" ++ str_of_Z n), w).
Proof.
  intros Hmemo Hrid Hnid Hrepo Hnum Hint Hn.
  assert (E : get_jira_custom_fields w = (Ok d, w)).
  { unfold get_jira_custom_fields. now rewrite Hmemo. }
  assert (E1 : github_pr_repo issue w = (Ok (fields_get issue rid), w)).
  { unfold github_pr_repo. rewrite (bind_ok _ _ _ _ _ E).
    unfold getitem. rewrite Hrid. unfold bind at 1, ret at 1.
    rewrite Hrepo. now destruct (issue_parent issue). }
  assert (E2 : github_pr_num issue w = (Ok (Some n), w)).
  { unfold github_pr_num. rewrite (bind_ok _ _ _ _ _ E).
    unfold getitem. rewrite Hnid. unfold bind at 1, ret at 1.
    rewrite Hnum. cbn [negb]. unfold bind, ret.
    destruct (issue_parent issue); now rewrite Hint. }
  split; [exact E1|]. split; [exact E2|].
  unfold github_pr_url. rewrite (bind_ok _ _ _ _ _ E1), (bind_ok _ _ _ _ _ E2).
  rewrite Hrepo. simpl. apply Z.eqb_neq in Hn. now rewrite Hn.
Qed.

(** X5.  The exemption table in closed form: the members of
    "edx-employees" skip triage in every project, those of "clarice" and of
    "bnotions" in the project "MOB" only, and nobody else does.  The
    decision is the same in whatever order the groups are gone through. *)
Theorem exempt_groups_closed_form (pk : string) (user_groups : list string) :
  (exempt_loop pk user_groups = true <->
   In "edx-employees" user_groups \/
   (pk = "MOB" /\ (In "clarice" user_groups \/ In "bnotions" user_groups))) /\
  (forall user_groups',
     (forall g, In g user_groups <-> In g user_groups') ->
     exempt_loop pk user_groups' = exempt_loop pk user_groups).
Proof.
  assert (H : forall l,
    exempt_loop pk l = true <->
    In "edx-employees" l \/ (pk = "MOB" /\ (In "clarice" l \/ In "bnotions" l))).
  { intros l. rewrite exempt_loop_true. split.
    - intros [g [Hin [projects [Hget Hor]]]].
      unfold exempt_groups in Hget. simpl in Hget.
      destruct (g =? "edx-employees") eqn:E1.
      { apply String.eqb_eq in E1. subst g. now left. }
      destruct (g =? "clarice") eqn:E2.
      { apply String.eqb_eq in E2. subst g. injection Hget as <-.
        right. destruct Hor as [[H | []] | [H | []]]; [discriminate|].
        split; [now symmetry | now left]. }
      destruct (g =? "bnotions") eqn:E3; [|discriminate].
      apply String.eqb_eq in E3. subst g. injection Hget as <-.
      right. destruct Hor as [[H | []] | [H | []]]; [discriminate|].
      split; [now symmetry | now right].
    - intros [Hin | [-> [Hin | Hin]]].
      + exists "edx-employees". split; [exact Hin|].
        exists ["ALL"]. split; [reflexivity | left; now left].
      + exists "clarice". split; [exact Hin|].
        exists ["MOB"]. split; [reflexivity | right; now left].
      + exists "bnotions". split; [exact Hin|].
        exists ["MOB"]. split; [reflexivity | right; now left]. }
  split; [apply H|].
  intros l' Hsame.
  destruct (exempt_loop pk user_groups) eqn:E.
  - apply H. apply H in E. rewrite <- !Hsame. exact E.
  - destruct (exempt_loop pk l') eqn:E'; [|reflexivity].
    apply H in E'. rewrite <- !Hsame in E'. apply H in E'. congruence.
Qed.

Lemma list_remove_last (x : string) (l : list string) :
  ~ In x l -> list_remove x (l ++ [x]) = l.
Proof.
  induction l as [|z l IH]; simpl; intros H.
  - now rewrite String.eqb_refl.
  - destruct (x =? z) eqn:E.
    + apply String.eqb_eq in E. subst z. tauto.
    + rewrite IH; [reflexivity | tauto].
Qed.

(** X6.  On the distinct labels of a pull request the replacement of the
    status label keeps the labels distinct and is idempotent: applied again
    with the same old and new label, as on a redelivered event, it changes
    nothing. *)
Theorem replace_label_idempotent (pr_labels : list string) (old new : string) :
  NoDup pr_labels ->
  NoDup (replace_label pr_labels old new) /\
  replace_label (replace_label pr_labels old new) old new
    = replace_label pr_labels old new.
Proof.
  intros Hnd.
  pose proof (list_remove_keeps_nodup old _ Hnd) as Hr.
  pose proof (list_remove_nodup old _ Hnd) as Hold.
  destruct (replace_label_spec pr_labels old new) as [H1 H2].
  destruct (in_dec string_dec new (list_remove old pr_labels)) as [Hin | Hout].
  - rewrite (H1 Hin). split; [exact Hr|].
    destruct (replace_label_spec (list_remove old pr_labels) old new) as [H3 _].
    rewrite (list_remove_absent _ _ Hold) in H3. now apply H3.
  - rewrite (H2 Hout).
    assert (Hnd' : NoDup (list_remove old pr_labels ++ [new])).
    { apply NoDup_app; [exact Hr | repeat constructor; intros [] |].
      intros x Hx [<- | []]. contradiction. }
    split; [exact Hnd'|].
    destruct (replace_label_spec (list_remove old pr_labels ++ [new]) old new) as [H3 H4].
    destruct (string_dec old new) as [-> | Hne].
    + rewrite (list_remove_last _ _ Hout) in H4. now apply H4.
    + assert (Ha : ~ In old (list_remove old pr_labels ++ [new])).
      { intros H. apply in_app_or in H. destruct H as [H | [H | []]]; [tauto | congruence]. }
      rewrite (list_remove_absent _ _ Ha) in H3. apply H3.
      apply in_or_app. right. now left.
Qed.


Section MoreUpdated.

Context {py : PyRuntime}.
Variable cert_info_update : Issue -> Comment -> M string.

(** X8.  An update without a comment that is not about an OSPR issue, or is
    about an OSPR subtask, or has no changelog, or has a changelog without a
    status item, is answered "I don't care" (or "ignoring subtasks") and
    leaves the world alone: nothing is sent to either tracker. *)
Theorem update_without_status_change_is_ignored (event : Event) (issue : Issue) (w : World) :
  event_issue event = Some issue ->
  event_comment event = None ->
  project_key issue <> "OSPR" \/
  is_subtask issue = true \/
  event_changelog event = None \/
  (exists changelog, event_changelog event = Some changelog /\
     forall item, In item (items changelog) -> field item <> "status") ->
  exists answer,
    jira_issue_updated cert_info_update event w = (Ok (Body answer), w) /\
    (answer = "I don't care" \/ answer = "ignoring subtasks").
Proof.
  intros Hissue Hcomment Hwhy.
  unfold jira_issue_updated. rewrite Hissue, (true_comment_none _ Hcomment).
  destruct (project_key issue =? "OSPR") eqn:Ep; cbn [negb].
  2: { exists "I don't care". split; [reflexivity | now left]. }
  destruct (is_subtask issue).
  { exists "ignoring subtasks". split; [reflexivity | now right]. }
  destruct (event_changelog event) as [changelog|].
  2: { exists "I don't care". split; [reflexivity | now left]. }
  destruct Hwhy as [H | [H | [H | [changelog' [E H]]]]]; try discriminate.
  { apply String.eqb_eq in Ep. contradiction. }
  injection E as <-.
  assert (Hnone : status_items changelog = []).
  { unfold status_items. induction (items changelog) as [|item l IH]; [reflexivity|].
    simpl. destruct (field item =? "status") eqn:Ef.
    - apply String.eqb_eq in Ef. exfalso. apply (H item); [now left | exact Ef].
    - apply IH. intros item' Hin. apply H. now right. }
  rewrite Hnone. exists "I don't care". split; [reflexivity | now left].
Qed.

Lemma lower_index_absent (labels : list Label) (k : string) :
  (forall name, In name (map label_name labels) -> lower name <> k) ->
  Dict.mem k (lower_index labels) = false.
Proof.
  intros H. unfold Dict.mem.
  destruct (Dict.get k (lower_index labels)) as [name|] eqn:E; [|reflexivity].
  destruct (lower_index_some _ _ _ E) as [Hin El]. exfalso. now apply (H name).
Qed.

(** X9.  A change of an OSPR issue to a status that is not "Rejected" and
    that no label of the repository bears, in any casing, needs no change:
    after resolving the repository and reading its labels the view answers
    "no change necessary", and it has written to neither tracker. *)
Theorem unlabelled_status_needs_no_change (event : Event) (issue : Issue)
    (changelog : Changelog) (first : ChangeItem) (rest : list ChangeItem)
    (w w1 : World) (repo : PyVal) (labels : list Label) :
  event_issue event = Some issue ->
  event_comment event = None ->
  project_key issue = "OSPR" ->
  is_subtask issue = false ->
  event_changelog event = Some changelog ->
  status_items changelog = first :: rest ->
  github_pr_repo issue w = (Ok repo, w1) ->
  truthy repo = true ->
  let catalog := mkRequest github GET (Path ("/repos/" ++ py_str repo ++ "/labels")) NoJson in
  ok (remote w1 (calls w1) catalog) = true ->
  json (remote w1 (calls w1) catalog) = CatalogJson labels ->
  toString first <> "Rejected" ->
  (forall name, In name (map label_name labels) -> lower name <> lower (toString first)) ->
  jira_issue_updated cert_info_update event w =
    (Ok (Body "no change necessary"), sent w1 [catalog]) /\
  writes (calls (sent w1 [catalog])) = writes (calls w).
Proof.
  intros Hissue Hcomment Hp Hsub Hlog Hitems Hrepo Htruthy catalog Hok Hjson Hrej Hlab.
  split.
  - unfold jira_issue_updated.
    rewrite Hissue, (true_comment_none _ Hcomment), Hp, Hsub, Hlog, Hitems.
    simpl (negb ("OSPR" =? "OSPR")). cbv iota.
    rewrite (bind_ok _ _ _ _ _ Hrepo). rewrite Htruthy. cbn [negb].
    rewrite (bind_ok _ _ _ _ _ (request_run _ _ _ _ _)). fold catalog.
    rewrite Hok. cbn [negb]. unfold json_labels. rewrite Hjson.
    unfold bind at 1, ret at 1.
    apply String.eqb_neq in Hrej. rewrite Hrej.
    rewrite (lower_index_absent _ _ Hlab). reflexivity.
  - destruct (reads_only_pr_repo _ _ _ _ Hrepo) as [l [Hc Hw]].
    simpl. rewrite Hc, !writes_app, Hw. simpl. now rewrite !app_nil_r.
Qed.

(** X10.  A change to "Rejected" in a repository that has a label of that
    name fires both branches, the rejection first.  If the rejection raises,
    the labels are left alone and the exception is that of the view.
    Otherwise the label branch runs next, and when it succeeds the answer is
    the two outcomes, rejection first, on two lines. *)
Theorem rejected_and_labelled (event : Event) (issue : Issue)
    (changelog : Changelog) (first : ChangeItem) (rest : list ChangeItem)
    (w w1 w2 : World) (repo : PyVal) (labels : list Label) (r1 : Result string) :
  event_issue event = Some issue ->
  event_comment event = None ->
  project_key issue = "OSPR" ->
  is_subtask issue = false ->
  event_changelog event = Some changelog ->
  status_items changelog = first :: rest ->
  github_pr_repo issue w = (Ok repo, w1) ->
  truthy repo = true ->
  let catalog := mkRequest github GET (Path ("/repos/" ++ py_str repo ++ "/labels")) NoJson in
  ok (remote w1 (calls w1) catalog) = true ->
  json (remote w1 (calls w1) catalog) = CatalogJson labels ->
  toString first = "Rejected" ->
  Dict.mem (lower "Rejected") (lower_index labels) = true ->
  jira_issue_rejected issue (sent w1 [catalog]) = (r1, w2) ->
  match r1 with
  | Raise e => jira_issue_updated cert_info_update event w = (Raise e, w2)
  | Ok closed =>
      jira_issue_updated cert_info_update event w =
        (match fst (jira_issue_status_changed issue changelog w2) with
         | Ok relabelled => Ok (Body (closed ++ newline ++ relabelled))
         | Raise e => Raise e
         end,
         snd (jira_issue_status_changed issue changelog w2))
  end.
Proof.
  intros Hissue Hcomment Hp Hsub Hlog Hitems Hrepo Htruthy catalog Hok Hjson Hrej Hlab Hrun.
  assert (E : jira_issue_updated cert_info_update event w =
    (changes1 <- (change <- jira_issue_rejected issue ;; ret [change]) ;;
     changes <- (change <- jira_issue_status_changed issue changelog ;;
                 ret (changes1 ++ [change])%list) ;;
     match changes with
     | [] => ret (Body "no change necessary")
     | _ => ret (Body (String.concat newline changes))
     end) (sent w1 [catalog])).
  { unfold jira_issue_updated.
    rewrite Hissue, (true_comment_none _ Hcomment), Hp, Hsub, Hlog, Hitems.
    simpl (negb ("OSPR" =? "OSPR")). cbv iota.
    rewrite (bind_ok _ _ _ _ _ Hrepo). rewrite Htruthy. cbn [negb].
    rewrite (bind_ok _ _ _ _ _ (request_run _ _ _ _ _)). fold catalog.
    rewrite Hok. cbn [negb]. unfold json_labels. rewrite Hjson.
    unfold bind at 1, ret at 1.
    rewrite Hrej. rewrite Hlab. reflexivity. }
  rewrite E. unfold bind. rewrite Hrun.
  destruct r1 as [closed | e]; [|reflexivity].
  unfold ret.
  destruct (jira_issue_status_changed issue changelog w2) as [[relabelled | e] w3];
    reflexivity.
Qed.

End MoreUpdated.

(** ** What the views write *)

Lemma yields_weaken {A} (P Q : Result A -> list Request -> Prop) (m : M A) :
  (forall r ws, P r ws -> Q r ws) -> yields P m -> yields Q m.
Proof.
  intros HPQ Hm w r w' H. destruct (Hm _ _ _ H) as [l [Hc HP]].
  exists l. split; [exact Hc | now apply HPQ].
Qed.

Lemma yields_ret {A} (P : Result A -> list Request -> Prop) (a : A) :
  P (Ok a) [] -> yields P (ret a).
Proof.
  intros HP w r w' H. injection H as <- <-. exists []. now rewrite app_nil_r.
Qed.

Lemma yields_raise {A} (P : Result A -> list Request -> Prop) (e : Exn) :
  P (Raise e) [] -> yields P (raise e).
Proof.
  intros HP w r w' H. injection H as <- <-. exists []. now rewrite app_nil_r.
Qed.

(** A step that only reads adds nothing to what is written. *)
Lemma yields_after_reads {A B} (P : Result B -> list Request -> Prop)
    (m : M A) (f : A -> M B) :
  reads_only m ->
  (forall e, P (Raise e) []) ->
  (forall a, yields P (f a)) ->
  yields P (bind m f).
Proof.
  intros Hm Hraise Hf w r w' H. unfold bind in H.
  destruct (m w) as [[a | e] w1] eqn:E; destruct (Hm _ _ _ E) as [l1 [C1 W1]].
  - destruct (Hf a _ _ _ H) as [l2 [C2 HP]].
    exists (l1 ++ l2)%list. split.
    + now rewrite C2, C1, app_assoc.
    + now rewrite writes_app, W1.
  - injection H as <- <-. exists l1. split; [exact C1|]. rewrite W1. apply Hraise.
Qed.

(** A request always comes back with a response; what follows adds its
    writes to the request itself. *)
Lemma yields_after_request {B} (Q P : Result B -> list Request -> Prop)
    (s : Session) (v : Verb) (t : Target) (j : JsonOut) (f : Response -> M B) :
  (forall resp, yields Q (f resp)) ->
  (forall r ws, Q r ws -> P r (writes [mkRequest s v t j] ++ ws)%list) ->
  yields P (bind (request s v t j) f).
Proof.
  intros Hf HQP w r w' H.
  rewrite (bind_ok _ _ _ _ _ (request_run _ _ _ _ _)) in H.
  destruct (Hf _ _ _ _ H) as [l [C HQ]].
  exists (mkRequest s v t j :: l). split.
  - rewrite C. simpl. now rewrite <- app_assoc.
  - change (mkRequest s v t j :: l) with ([mkRequest s v t j] ++ l)%list.
    rewrite writes_app. now apply HQP.
Qed.

Lemma yields_after_get {B} (P : Result B -> list Request -> Prop)
    (s : Session) (t : Target) (j : JsonOut) (f : Response -> M B) :
  (forall resp, yields P (f resp)) ->
  yields P (bind (request s GET t j) f).
Proof.
  intros Hf. apply (yields_after_request P P); [exact Hf | now intros r ws H].
Qed.

(** Two steps in a row: the writes of the second follow those of the
    first. *)
Lemma yields_bind {A B} (P : Result A -> list Request -> Prop)
    (Q : A -> Result B -> list Request -> Prop)
    (R : Result B -> list Request -> Prop) (m : M A) (f : A -> M B) :
  yields P m ->
  (forall a, yields (Q a) (f a)) ->
  (forall e ws, P (Raise e) ws -> R (Raise e) ws) ->
  (forall a ws1 r ws2, P (Ok a) ws1 -> Q a r ws2 -> R r (ws1 ++ ws2)%list) ->
  yields R (bind m f).
Proof.
  intros Hm Hf Hraise Hseq w r w' H. unfold bind in H.
  destruct (m w) as [[a | e] w1] eqn:E; destruct (Hm _ _ _ E) as [l1 [C1 HP]].
  - destruct (Hf a _ _ _ H) as [l2 [C2 HQ]].
    exists (l1 ++ l2)%list. split.
    + now rewrite C2, C1, app_assoc.
    + rewrite writes_app. now apply (Hseq a).
  - injection H as <- <-. exists l1. split; [exact C1 | now apply Hraise].
Qed.

Lemma reads_only_json_gh_issue (r : Response) : reads_only (json_gh_issue r).
Proof.
  unfold json_gh_issue. destruct (json r);
    first [apply reads_only_ret | apply reads_only_raise].
Qed.

Lemma reads_only_json_gh_labels (r : Response) : reads_only (json_gh_labels r).
Proof.
  unfold json_gh_labels. destruct (json r);
    first [apply reads_only_ret | apply reads_only_raise].
Qed.

Lemma reads_only_json_labels (r : Response) : reads_only (json_labels r).
Proof.
  unfold json_labels. destruct (json r);
    first [apply reads_only_ret | apply reads_only_raise].
Qed.

Lemma reads_only_json_transitions (r : Response) : reads_only (json_transitions r).
Proof.
  unfold json_transitions. destruct (json r);
    first [apply reads_only_ret | apply reads_only_raise].
Qed.

Lemma reads_only_should_transition (issue : Issue) : reads_only (should_transition issue).
Proof.
  intros w r w' H. destruct (should_transition_reads_only _ _ _ _ H) as [l [-> Hw]].
  now exists l.
Qed.

Section Writes.

Context {py : PyRuntime}.
Variable cert_info_update : Issue -> Comment -> M string.

(** X11.  However [jira_issue_status_changed] ends, all it has written is at
    most one patch of the labels of an issue: it never closes a pull request
    and never comments.  When it succeeds it has sent that patch. *)
Theorem status_changed_writes_labels_only (issue : Issue) (changelog : Changelog) :
  yields (fun r ws =>
            label_patch_at_most ws /\ (forall msg, r = Ok msg -> ws <> []))
         (jira_issue_status_changed issue changelog).
Proof.
  set (P := fun (r : Result string) (ws : list Request) =>
              label_patch_at_most ws /\ (forall msg, r = Ok msg -> ws <> [])).
  assert (Hraise : forall e, P (Raise e) []).
  { intros e. split; [now left | discriminate]. }
  unfold jira_issue_status_changed.
  apply yields_after_reads; [apply reads_only_pr_num | exact Hraise |]. intros num.
  apply yields_after_reads; [apply reads_only_pr_repo | exact Hraise |]. intros repo.
  apply yields_after_reads; [apply reads_only_pr_url | exact Hraise |]. intros url.
  destruct (status_items changelog) as [|item rest]; [now apply yields_raise|].
  apply yields_after_get. intros resp.
  destruct (negb (ok resp)); [now apply yields_raise|].
  apply yields_after_get. intros cresp.
  destruct (negb (ok cresp)); [now apply yields_raise|].
  apply yields_after_reads; [apply reads_only_json_labels | exact Hraise |]. intros labels.
  apply yields_after_reads; [apply reads_only_json_gh_labels | exact Hraise |]. intros g.
  apply yields_after_reads; [apply reads_only_getitem | exact Hraise |]. intros new.
  apply (yields_after_request (fun _ ws => ws = [])).
  - intros presp. destruct (negb (ok presp));
      [apply yields_raise | apply yields_ret]; reflexivity.
  - intros r ws ->. split.
    + right. eexists. eexists. reflexivity.
    + intros msg _. discriminate.
Qed.

(** X12.  However [jira_issue_rejected] ends, what it has written is
    nothing, or one comment followed by one patch to "closed": no comment is
    posted without the close being attempted after it, no close is attempted
    without the comment, and the labels are never touched.  When it raises an
    exception other than [RequestException], it has written nothing. *)
Theorem rejected_writes_comment_and_close (issue : Issue) :
  yields (fun r ws =>
            comment_and_close_at_most ws /\
            (forall e, r = Raise e -> ws <> [] -> exists msg, e = RequestException msg))
         (jira_issue_rejected issue).
Proof.
  set (P := fun (r : Result string) (ws : list Request) =>
              comment_and_close_at_most ws /\
              (forall e, r = Raise e -> ws <> [] -> exists msg, e = RequestException msg)).
  assert (Hnil : forall r, P r []).
  { intros r. split; [now left | intros e _ H; now elim H]. }
  unfold jira_issue_rejected.
  apply yields_after_reads; [apply reads_only_pr_num | intros; apply Hnil |]. intros num.
  apply yields_after_reads; [apply reads_only_pr_url | intros; apply Hnil |]. intros url.
  apply yields_after_get. intros resp.
  destruct (negb (ok resp)); [apply yields_raise; apply Hnil|].
  apply yields_after_reads; [apply reads_only_json_gh_issue | intros; apply Hnil |].
  intros g.
  destruct (gh_state g =? "closed"); [apply yields_ret; apply Hnil|].
  apply (yields_after_request
           (fun r ws =>
              ws = [mkRequest github PATCH (Path url) (StateJson "closed")] /\
              (forall e, r = Raise e -> exists msg, e = RequestException msg))).
  - intros comment_resp.
    apply (yields_after_request
             (fun r ws => ws = [] /\
                (forall e, r = Raise e -> exists msg, e = RequestException msg))).
    + intros close_resp.
      destruct (negb (ok close_resp) || negb (ok comment_resp)).
      * apply yields_raise. split; [reflexivity|].
        intros e H. injection H as <-. eexists. reflexivity.
      * apply yields_ret. split; [reflexivity | discriminate].
    + intros r ws [-> H]. split; [reflexivity | exact H].
  - intros r ws [-> H]. split.
    + right. eexists. eexists. eexists. reflexivity.
    + intros e He _. now apply H.
Qed.

End Writes.

Lemma yields_then_reads {A B} (S : list Request -> Prop) (m : M A) (f : A -> M B) :
  yields (fun _ ws => S ws) m ->
  (forall a, reads_only (f a)) ->
  yields (fun _ ws => S ws) (bind m f).
Proof.
  intros Hm Hf.
  apply (yields_bind (fun _ ws => S ws) (fun _ _ ws => ws = [])).
  - exact Hm.
  - intros a w r w' H. destruct (Hf a _ _ _ H) as [l [C W]]. now exists l.
  - now intros e ws H.
  - intros a ws1 r ws2 H ->. now rewrite app_nil_r.
Qed.

(** Goes through a view up to its first write: the steps that only read
    are skipped, the tests are split, and [fin] closes the ends. *)
Ltac reads :=
  first [ apply reads_only_pr_num | apply reads_only_pr_repo | apply reads_only_pr_url
        | apply reads_only_json_gh_issue | apply reads_only_json_gh_labels
        | apply reads_only_json_labels
        | apply reads_only_json_transitions | apply reads_only_getitem
        | apply reads_only_should_transition
        | apply reads_only_ret | apply reads_only_raise ].

Ltac walk fin :=
  repeat first
    [ apply yields_ret; fin
    | apply yields_raise; fin
    | apply yields_after_get; intro
    | apply yields_after_reads; [ solve [reads] | intros; fin | intro ]
    | match goal with |- yields _ (if ?b then _ else _) => destruct b end ].

Section WriteShapes.

Context {py : PyRuntime}.

Lemma status_changed_patches_at_most (issue : Issue) (changelog : Changelog) :
  yields (fun _ ws => label_patch_at_most ws) (jira_issue_status_changed issue changelog).
Proof.
  unfold jira_issue_status_changed.
  walk ltac:(now left).
  destruct (status_items changelog) as [|item rest]; [apply yields_raise; now left|].
  walk ltac:(now left).
  apply (yields_after_request (fun _ ws => ws = [])).
  - intro. walk ltac:(reflexivity).
  - intros r ws ->. right. eexists. eexists. reflexivity.
Qed.

Lemma rejected_comments_and_closes_at_most (issue : Issue) :
  yields (fun _ ws => comment_and_close_at_most ws) (jira_issue_rejected issue).
Proof.
  unfold jira_issue_rejected.
  walk ltac:(now left).
  match goal with
  | |- yields _ (bind (request _ _ _ _) (fun _ => bind (request _ _ (Path ?u) _) _)) =>
      apply (yields_after_request
               (fun _ ws => ws = [mkRequest github PATCH (Path u) (StateJson "closed")]))
  end.
  - intro. apply (yields_after_request (fun _ ws => ws = [])).
    + intro. walk ltac:(reflexivity).
    + now intros r ws ->.
  - intros r ws ->. right. eexists. eexists. eexists. reflexivity.
Qed.

Lemma issue_opened_out_of_triage (issue : Issue) (w : World) :
  status_name issue <> "Needs Triage" ->
  issue_opened issue w = (Ok "ignored", w).
Proof.
  intros Hs. unfold issue_opened.
  assert (H : should_transition issue w = (Ok false, w)).
  { unfold should_transition, to_unicode.
    apply String.eqb_neq in Hs. now rewrite Hs. }
  now rewrite (bind_ok _ _ _ _ _ H).
Qed.

(** A run of [issue_opened] sends requests that only read, and then at most
    the post of the transition: if it does, the outcome is decided by the
    answer to that post. *)
Lemma issue_opened_runs (issue : Issue) (w w' : World) (r : Result string) :
  issue_opened issue w = (r, w') ->
  exists pre,
    writes pre = [] /\
    (calls w' = (calls w ++ pre)%list \/
     exists post,
       is_write post = true /\
       calls w' = (calls w ++ pre ++ [post])%list /\
       r = if ok (remote w (calls w ++ pre)%list post)
           then Ok "Transitioned to Open"
           else Raise (RequestException (text (remote w (calls w ++ pre)%list post)))).
Proof.
  intros H. unfold issue_opened in H.
  destruct (should_transition issue w) as [[go | e] w1] eqn:Es;
    destruct (should_transition_reads_only _ _ _ _ Es) as [l0 [-> Hl0]].
  2: { rewrite (bind_raise _ _ _ _ _ Es) in H. injection H as <- <-.
       exists l0. split; [exact Hl0 | now left]. }
  rewrite (bind_ok _ _ _ _ _ Es) in H.
  destruct go.
  2: { injection H as <- <-. exists l0. split; [exact Hl0 | now left]. }
  unfold jira_get in H. unfold bind at 1 2 in H. rewrite request_run in H.
  rewrite sent_sent in H.
  match type of H with
  | context [sent w (l0 ++ [?q])] => set (fetch := q) in *
  end.
  assert (Hpre : writes (l0 ++ [fetch]) = []).
  { rewrite writes_app, Hl0. reflexivity. }
  destruct (negb (ok (remote (sent w l0) (calls (sent w l0)) fetch))).
  { injection H as <- <-. exists (l0 ++ [fetch])%list. split; [exact Hpre | now left]. }
  unfold bind at 1 in H. unfold json_transitions in H.
  destruct (json (remote (sent w l0) (calls (sent w l0)) fetch));
    try (injection H as <- <-; exists (l0 ++ [fetch])%list;
         split; [exact Hpre | now left]).
  cbv zeta in H. unfold bind at 1 in H. unfold ret at 1 in H. cbv beta iota in H.
  match type of H with
  | context [(if ?c then ret "Open" else ?rest) ?v] =>
      destruct ((if c then ret "Open" else rest) v) as [[new_status | e] wn] eqn:Esel
  end.
  2: { assert (wn = sent w (l0 ++ [fetch])).
       { destruct (Dict.mem "Open" _) in Esel; [discriminate|].
         destruct (Dict.mem "Design Backlog" _) in Esel; [discriminate|].
         now injection Esel as _ <-. }
       subst wn. injection H as <- <-.
       exists (l0 ++ [fetch])%list. split; [exact Hpre | now left]. }
  assert (wn = sent w (l0 ++ [fetch])).
  { destruct (Dict.mem "Open" _) in Esel; [now injection Esel as _ <-|].
    destruct (Dict.mem "Design Backlog" _) in Esel; [now injection Esel as _ <-|].
    discriminate. }
  subst wn. clear Esel.
  unfold bind at 1, getitem in H.
  destruct (Dict.get new_status _) as [id|].
  2: { injection H as <- <-. exists (l0 ++ [fetch])%list. split; [exact Hpre | now left]. }
  unfold ret at 1 in H. unfold bind at 1 in H. rewrite request_run, sent_sent in H.
  match type of H with
  | context [sent w ((l0 ++ [fetch]) ++ [?q])] => set (post := q) in *
  end.
  change (remote (sent w (l0 ++ [fetch])) (calls (sent w (l0 ++ [fetch]))) post)
    with (remote w (calls w ++ (l0 ++ [fetch]))%list post) in H.
  exists (l0 ++ [fetch])%list. split; [exact Hpre|]. right. exists post.
  split; [reflexivity|].
  destruct (ok (remote w (calls w ++ (l0 ++ [fetch]))%list post));
    cbn [negb] in H; injection H as <- <-; split; reflexivity.
Qed.

End WriteShapes.

Section UpdateWrites.

Context {py : PyRuntime}.
Variable cert_info_update : Issue -> Comment -> M string.

(** X13.  However the view of an update without comment ends, what it has
    written is at most one comment with one close, followed by at most one
    patch of labels; and a comment or a close is written only when the first
    status item of the changelog goes to "Rejected". *)
Theorem update_closes_only_on_rejected (event : Event) :
  event_comment event = None ->
  yields (fun _ ws =>
            exists a b,
              ws = (a ++ b)%list /\
              comment_and_close_at_most a /\
              label_patch_at_most b /\
              (a <> [] ->
               exists changelog first rest,
                 event_changelog event = Some changelog /\
                 status_items changelog = first :: rest /\
                 toString first = "Rejected"))
         (jira_issue_updated cert_info_update event).
Proof.
  intros Hcomment.
  set (S := fun ws : list Request =>
              exists a b,
                ws = (a ++ b)%list /\
                comment_and_close_at_most a /\
                label_patch_at_most b /\
                (a <> [] ->
                 exists changelog first rest,
                   event_changelog event = Some changelog /\
                   status_items changelog = first :: rest /\
                   toString first = "Rejected")).
  assert (Hnil : S []).
  { exists [], []. split; [reflexivity|]. split; [now left|]. split; [now left|].
    intros H. now elim H. }
  change (yields (fun (_ : Result Reply) ws => S ws)
                 (jira_issue_updated cert_info_update event)).
  unfold jira_issue_updated. rewrite (true_comment_none _ Hcomment).
  destruct (event_issue event) as [issue|]; [|now apply yields_ret].
  destruct (negb (project_key issue =? "OSPR")); [now apply yields_ret|].
  destruct (is_subtask issue); [now apply yields_ret|].
  destruct (event_changelog event) as [changelog|] eqn:Hlog; [|now apply yields_ret].
  destruct (status_items changelog) as [|first rest] eqn:Hitems; [now apply yields_ret|].
  apply yields_after_reads; [apply reads_only_pr_repo | now intros |]. intros repo.
  destruct (negb (truthy repo)); [now apply yields_raise|].
  apply yields_after_get. intros resp.
  destruct (negb (ok resp)); [now apply yields_raise|].
  apply yields_after_reads; [apply reads_only_json_labels | now intros |]. intros labels.
  cbv zeta.
  apply (yields_bind
           (fun (_ : Result (list string)) ws =>
              comment_and_close_at_most ws /\ (ws <> [] -> toString first = "Rejected"))
           (fun _ (_ : Result Reply) ws => label_patch_at_most ws)).
  - destruct (toString first =? "Rejected") eqn:Erej.
    + apply String.eqb_eq in Erej.
      apply (yields_then_reads
               (fun ws => comment_and_close_at_most ws /\
                          (ws <> [] -> toString first = "Rejected"))).
      * apply (yields_weaken _ _ _
                 (fun r ws H => conj H (fun _ => Erej))
                 (rejected_comments_and_closes_at_most issue)).
      * intros change. apply reads_only_ret.
    + apply yields_ret. split; [now left | intros H; now elim H].
  - intros changes1.
    apply (yields_then_reads label_patch_at_most).
    + destruct (Dict.mem (lower (toString first)) (lower_index labels)).
      * apply (yields_then_reads label_patch_at_most).
        -- apply status_changed_patches_at_most.
        -- intros change. apply reads_only_ret.
      * apply yields_ret. now left.
    + intros changes. destruct changes; apply reads_only_ret.
  - intros e ws [Hcc Hrej]. exists ws, []. rewrite app_nil_r.
    split; [reflexivity|]. split; [exact Hcc|]. split; [now left|].
    intros Hne. exists changelog, first, rest. auto.
  - intros changes1 ws1 r ws2 [Hcc Hrej] Hlab. exists ws1, ws2.
    split; [reflexivity|]. split; [exact Hcc|]. split; [exact Hlab|].
    intros Hne. exists changelog, first, rest. auto.
Qed.

(** X14.  However [jira_issue_created] ends, it has written at most once,
    and then a post of one transition to the transitions of the issue.  It
    answers "ignored", or 400 to an event without issue, having written
    nothing.  Whenever it has written, the post is the last request of the
    run and its answer decides the outcome: "Transitioned to Open" when the
    tracker accepted it (also when the transition is "Design Backlog"), the
    [RequestException] with the text of the answer when it refused. *)
Theorem created_writes_one_transition (event : Event) :
  yields (fun r ws =>
            let posted issue :=
              exists id,
                ws = [mkRequest jira POST
                        (Url (with_path (issue_self issue)
                                        (path (issue_self issue) ++ "/transitions")))
                        (TransitionJson id)] in
            match r with
            | Ok (BodyStatus _ code) => code = 400%Z /\ event_issue event = None /\ ws = []
            | Ok (Body outcome) =>
                exists issue, event_issue event = Some issue /\
                  ((outcome = "ignored" /\ ws = []) \/
                   (outcome = "Transitioned to Open" /\ posted issue))
            | Raise e =>
                ws = [] \/
                exists issue msg, event_issue event = Some issue /\
                  posted issue /\ e = RequestException msg
            end)
         (jira_issue_created event) /\
  (forall w r w' l,
     jira_issue_created event w = (r, w') ->
     calls w' = (calls w ++ l)%list ->
     writes l <> [] ->
     exists pre post,
       l = (pre ++ [post])%list /\
       writes pre = [] /\
       is_write post = true /\
       r = if ok (remote w (calls w ++ pre)%list post)
           then Ok (Body "Transitioned to Open")
           else Raise (RequestException (text (remote w (calls w ++ pre)%list post)))).
Proof.
  split.
  2: { intros w r w' l Hrun Hcalls Hwrites.
       unfold jira_issue_created in Hrun.
       destruct (event_issue event) as [issue|].
       2: { injection Hrun as <- <-. exfalso. apply Hwrites.
            rewrite <- (app_nil_r (calls w)) in Hcalls at 1.
            apply app_inv_head in Hcalls. now subst l. }
       unfold bind in Hrun.
       destruct (issue_opened issue w) as [r0 w0] eqn:Eo.
       destruct (issue_opened_runs _ _ _ _ Eo) as [pre [Hpre [Hc | [post [Hp [Hc Hr]]]]]].
       - exfalso. apply Hwrites.
         assert (w0 = w') by (destruct r0; now injection Hrun as _ <-). subst w0.
         rewrite Hc in Hcalls. apply app_inv_head in Hcalls. now subst l.
       - assert (w0 = w') by (destruct r0; now injection Hrun as _ <-). subst w0.
         rewrite Hc in Hcalls. apply app_inv_head in Hcalls. subst l.
         exists pre, post. split; [reflexivity|]. split; [exact Hpre|].
         split; [exact Hp|].
         subst r0. destruct (ok (remote w (calls w ++ pre)%list post));
           now injection Hrun as <-. }
  unfold jira_issue_created.
  destruct (event_issue event) as [issue|]; [|now apply yields_ret].
  set (url := with_path (issue_self issue) (path (issue_self issue) ++ "/transitions")).
  set (posted := fun ws : list Request =>
                   exists id, ws = [mkRequest jira POST (Url url) (TransitionJson id)]).
  assert (Hopened :
    yields (fun r ws =>
              match r with
              | Ok outcome =>
                  (outcome = "ignored" /\ ws = []) \/
                  (outcome = "Transitioned to Open" /\ posted ws)
              | Raise e => ws = [] \/ exists msg, posted ws /\ e = RequestException msg
              end)
           (issue_opened issue)).
  { unfold issue_opened.
    apply yields_after_reads; [apply reads_only_should_transition | now left |].
    intros go.
    apply (yields_bind
             (fun (r : Result bool) ws =>
                match r with
                | Ok transitioned =>
                    if transitioned then posted ws else ws = []
                | Raise e => ws = [] \/ exists msg, posted ws /\ e = RequestException msg
                end)
             (fun transitioned (r : Result string) ws =>
                r = Ok (if transitioned : bool then "Transitioned to Open" else "ignored")
                /\ ws = [])).
    - destruct go; [|now apply yields_ret].
      fold url. unfold jira_get. apply yields_after_get. intros resp.
      destruct (negb (ok resp)); [apply yields_raise; now left|].
      apply yields_after_reads;
        [apply reads_only_json_transitions | now left |]. intros ts.
      cbv zeta.
      apply yields_after_reads; [| now left |].
      { repeat apply reads_only_if;
          first [apply reads_only_ret | apply reads_only_raise]. }
      intros new_status.
      apply yields_after_reads; [apply reads_only_getitem | now left |]. intros id.
      apply (yields_after_request
               (fun (r : Result bool) ws =>
                  ws = [] /\ (r = Ok true \/ exists msg, r = Raise (RequestException msg)))).
      + intros presp. destruct (negb (ok presp)).
        * apply yields_raise. split; [reflexivity | right; eexists; reflexivity].
        * apply yields_ret. split; [reflexivity | now left].
      + intros r ws [-> [-> | [msg ->]]]; simpl.
        * now exists id.
        * right. exists msg. split; [now exists id | reflexivity].
    - intros transitioned. apply yields_ret. now split.
    - now intros e ws H.
    - intros transitioned ws1 r ws2 H1 [-> ->]. rewrite app_nil_r.
      destruct transitioned; [right | left]; now split. }
  apply (yields_bind _ (fun outcome (r : Result Reply) ws => r = Ok (Body outcome) /\ ws = [])
           _ _ _ Hopened).
  - intros outcome. apply yields_ret. now split.
  - intros e ws [-> | [msg [Hp ->]]]; [now left|].
    right. exists issue, msg. split; [reflexivity|]. split; [exact Hp | reflexivity].
  - intros outcome ws1 r ws2 H [-> ->]. rewrite app_nil_r.
    exists issue. split; [reflexivity | exact H].
Qed.

End UpdateWrites.

(** ** Rescanning issues *)

Section Rescan.

Context {py : PyRuntime}.

(** On issues that are out of triage the loop goes through the generator as
    [drain] does, adding "ignored" under each key. *)
Lemma rescan_loop_triaged :
  forall (g : Gen Issue) (results : Dict.t string) (w w' : World) (issues : list Issue),
    drain g w = (Ok issues, w') ->
    Forall (fun issue => status_name issue <> "Needs Triage") issues ->
    rescan_loop g results w =
      (Ok (fold_left (fun d kv => Dict.set (fst kv) (snd kv) d)
                     (map (fun issue => (issue_key issue, "ignored")) issues) results),
       w').
Proof.
  fix IH 1. intros g results w w' issues Hdrain Hall.
  destruct g as [|issue rest].
  - simpl in Hdrain. injection Hdrain as <- <-. reflexivity.
  - simpl in Hdrain. unfold bind at 1 in Hdrain.
    destruct (rest w) as [[g' | e] w1] eqn:Erest; [|discriminate].
    unfold bind at 1 in Hdrain.
    destruct (drain g' w1) as [[l | e] w2] eqn:Edrain; [|discriminate].
    injection Hdrain as <- <-.
    inversion Hall as [|i l' Hissue Hrest]; subst.
    simpl.
    rewrite (bind_ok _ _ _ _ _ (issue_opened_out_of_triage issue w Hissue)).
    rewrite (bind_ok _ _ _ _ _ Erest).
    apply (IH g' _ _ _ _ Edrain Hrest).
Qed.

(** X15.  Rescanning when every issue found is already out of "Needs Triage"
    changes nothing: the view sends what the search itself sends to go
    through its pages and nothing else, and answers with status 200 and
    "ignored" under the key of every issue found.  Without a query in the
    form, or with an empty one, the search is for the issues in "Needs
    Triage", by key. *)
Theorem rescan_of_triaged_issues (search : string -> M (Gen Issue)) (jql : option string)
    (w w1 w2 : World) (g : Gen Issue) (issues : list Issue) :
  let query :=
    match jql with
    | Some q => if q =? "" then default_jql else q
    | None => default_jql
    end in
  search query w = (Ok g, w1) ->
  drain g w1 = (Ok issues, w2) ->
  Forall (fun issue => status_name issue <> "Needs Triage") issues ->
  jira_rescan_issues search POST jql w =
    (Ok (Outcomes (Dict.of_list (map (fun issue => (issue_key issue, "ignored")) issues))
                  200),
     w2) /\
  (forall issue, In issue issues ->
     Dict.get (issue_key issue)
              (Dict.of_list (map (fun issue => (issue_key issue, "ignored")) issues))
       = Some "ignored").
Proof.
  intros query Hsearch Hdrain Hall. split.
  - unfold jira_rescan_issues. fold query.
    rewrite (bind_ok _ _ _ _ _ Hsearch).
    rewrite (bind_ok _ _ _ _ _ (rescan_loop_triaged _ _ _ _ _ Hdrain Hall)).
    reflexivity.
  - intros issue Hin.
    destruct (Dict.get (issue_key issue)
                (Dict.of_list (map (fun issue => (issue_key issue, "ignored")) issues)))
      as [v|] eqn:E.
    + apply DictFacts.of_list_some in E. apply in_map_iff in E.
      destruct E as [i [E _]]. now injection E as _ <-.
    + apply DictFacts.of_list_none in E. exfalso. apply E.
      rewrite map_map. simpl. apply in_map_iff. now exists issue.
Qed.

End Rescan.

(** ** From the pull request to its issue *)

Lemma replace_absent (old new s : string) :
  contains old s = false -> replace_from old new s 0 = s.
Proof.
  induction s as [|c s IH]; [reflexivity|].
  intros H. cbn [contains] in H. apply orb_false_iff in H. destruct H as [Hp Hc].
  cbn [replace_from]. rewrite Hp. now rewrite IH.
Qed.

Lemma prefix_pulls_slash (x rest : string) :
  String.prefix "pulls" (x ++ String "/" rest) = String.prefix "pulls" x.
Proof.
  destruct x as [|c1 [|c2 [|c3 [|c4 [|c5 x]]]]]; cbn [String.prefix String.append];
    repeat match goal with
           | |- context [ascii_dec ?a ?b] =>
               destruct (ascii_dec a b); try discriminate; cbn [String.prefix String.append]
           end;
    first [reflexivity | now destruct x].
Qed.

Lemma replace_pulls_skip (a rest : string) :
  contains "pulls" a = false ->
  replace_from "pulls" "issues" (a ++ String "/" rest) 0 =
  a ++ replace_from "pulls" "issues" (String "/" rest) 0.
Proof.
  induction a as [|c a IH]; [reflexivity|].
  intros H. cbn [contains] in H. apply orb_false_iff in H. destruct H as [Hp Hc].
  change (String c a ++ String "/" rest) with (String c (a ++ String "/" rest)).
  cbn [replace_from].
  change (String c (a ++ String "/" rest)) with (String c a ++ String "/" rest).
  rewrite prefix_pulls_slash, Hp.
  change (String c a ++ replace_from "pulls" "issues" (String "/" rest) 0)
    with (String c (a ++ replace_from "pulls" "issues" (String "/" rest) 0)).
  now rewrite IH.
Qed.

(** X16.  From the URL of a pull request, [/repos/<repo>/pulls/<number>],
    the replacement of "pulls" by "issues" makes the URL of its issue,
    [/repos/<repo>/issues/<number>], provided that "pulls" occurs neither in
    the name of the repository nor in the number: the replacement is of
    every occurrence, so an occurrence in the name would be rewritten as
    well. *)
Theorem issue_url_of_pull_url (repo num : string) :
  contains "pulls" repo = false ->
  contains "pulls" num = false ->
  str_replace "pulls" "issues" ("/repos/" ++ repo ++ "/pulls/" ++ num)
    = "/repos/" ++ repo ++ "/issues/" ++ num.
Proof.
  intros Hrepo Hnum. unfold str_replace.
  change ("/repos/" ++ repo ++ "/pulls/" ++ num)
    with (String "/" (String "r" (String "e" (String "p" (String "o" (String "s"
            (String "/" (repo ++ String "/" ("pulls/" ++ num))))))))).
  do 7 (cbn [replace_from String.prefix];
        repeat match goal with
               | |- context [ascii_dec ?a ?b] => destruct (ascii_dec a b); try discriminate
               end).
  all: rewrite (replace_pulls_skip _ _ Hrepo); cbn;
    rewrite (replace_absent _ _ _ Hnum); reflexivity.
Qed.

(** X17.  The resolution of a link fails loudly on a directory of custom
    fields that lacks a name it needs.  Without "Repo" in the directory,
    [github_pr_url] raises [KeyError] for it, whatever the issue holds.  With
    "Repo" but without "PR Number", it raises [KeyError] for "PR Number" on
    every issue for which the repository is resolved without the parent
    (an issue without parent, or with a repository of its own). *)
Theorem link_needs_directory_names {py : PyRuntime} (issue : Issue) (w w1 : World)
    (d : Dict.t string) :
  (get_jira_custom_fields w = (Ok d, w1) ->
   Dict.get "Repo" d = None ->
   github_pr_url issue w = (Raise (KeyError "Repo"), w1)) /\
  (forall rid,
     custom_fields_memo w = Some d ->
     Dict.get "Repo" d = Some rid ->
     Dict.get "PR Number" d = None ->
     issue_parent issue = None \/ truthy (fields_get issue rid) = true ->
     github_pr_url issue w = (Raise (KeyError "PR Number"), w)).
Proof.
  split.
  - intros Hdir Hnone. unfold github_pr_url, github_pr_repo.
    unfold bind at 1 2. rewrite Hdir. unfold getitem. now rewrite Hnone.
  - intros rid Hmemo Hrid Hnone Hown.
    assert (E : get_jira_custom_fields w = (Ok d, w)).
    { unfold get_jira_custom_fields. now rewrite Hmemo. }
    assert (E1 : github_pr_repo issue w = (Ok (fields_get issue rid), w)).
    { unfold github_pr_repo. rewrite (bind_ok _ _ _ _ _ E).
      unfold getitem. rewrite Hrid. unfold bind at 1, ret at 1.
      destruct Hown as [-> | ->]; [reflexivity|].
      now destruct (issue_parent issue). }
    unfold github_pr_url. rewrite (bind_ok _ _ _ _ _ E1).
    unfold github_pr_num. unfold bind at 1 2. rewrite E.
    unfold getitem. now rewrite Hnone.
Qed.

(** * The further properties at work on the sample trackers *)

Lemma custom_fields_fetched_once_witness :
  let w := Sample.world Sample.employee Sample.offered "open" true true in
  get_jira_custom_fields (Sample.resolved w)
    = (Ok [("Repo", Sample.repo_field); ("PR Number", Sample.num_field)],
       Sample.resolved w).
Proof.
  intros w.
  exact (proj2 (custom_fields_fetched_once w (Sample.resolved w)
                  (Ok [("Repo", Sample.repo_field); ("PR Number", Sample.num_field)])
                  eq_refl) (Sample.resolved w) eq_refl).
Defined.

Lemma custom_fields_are_custom_witness :
  let w := Sample.world Sample.employee Sample.offered "open" true true in
  exists d, fst (get_jira_custom_fields w) = Ok d /\
            Dict.get "Repo" d = Some Sample.repo_field.
Proof.
  intros w.
  destruct (custom_fields_are_custom w Sample.field_catalog eq_refl eq_refl eq_refl)
    as (d & w1 & Hrun & _ & Hin).
  exists d. split; [now rewrite Hrun|].
  apply (Hin (mkField Sample.repo_field "Repo" true)).
  - simpl. tauto.
  - reflexivity.
  - intros f' [<- | [<- | [<- | []]]] [H | H]; first [reflexivity | discriminate].
Defined.

Lemma link_of_own_fields_witness :
  let w := Sample.resolved (Sample.world Sample.employee Sample.offered "open" true true) in
  github_pr_url (Sample.contribution "Open") w = (Ok "/repos/edx/edx-platform/pulls/7", w).
Proof.
  intros w.
  assert (Hn : 7%Z <> 0%Z) by discriminate.
  exact (proj2 (proj2 (link_of_own_fields (py := ascii_runtime) (Sample.contribution "Open") w
                         [("Repo", Sample.repo_field); ("PR Number", Sample.num_field)]
                         Sample.repo_field Sample.num_field 7
                         eq_refl eq_refl eq_refl eq_refl eq_refl eq_refl Hn))).
Defined.

Lemma replace_label_idempotent_witness :
  replace_label (replace_label ["bug"; "Open"] "Open" "Merged") "Open" "Merged"
    = replace_label ["bug"; "Open"] "Open" "Merged".
Proof.
  assert (Hnd : NoDup ["bug"; "Open"]).
  { repeat constructor; simpl; intros H;
      repeat (destruct H as [H | H]; [discriminate|]); exact H. }
  exact (proj2 (replace_label_idempotent ["bug"; "Open"] "Open" "Merged" Hnd)).
Defined.


Lemma update_without_status_change_is_ignored_witness :
  let w := Sample.world Sample.employee Sample.offered "open" true true in
  exists answer,
    jira_issue_updated Sample.no_report
      (mkEvent (Some (Sample.mobile_issue "Open")) None
               (Some (Sample.status_change "Open" "Rejected"))) w
    = (Ok (Body answer), w).
Proof.
  intros w.
  assert (Hp : project_key (Sample.mobile_issue "Open") <> "OSPR") by discriminate.
  destruct (update_without_status_change_is_ignored (py := ascii_runtime) Sample.no_report
              (mkEvent (Some (Sample.mobile_issue "Open")) None
                       (Some (Sample.status_change "Open" "Rejected")))
              (Sample.mobile_issue "Open") w eq_refl eq_refl (or_introl Hp))
    as [answer [Hrun _]].
  now exists answer.
Defined.

Lemma unlabelled_status_needs_no_change_witness :
  let w := Sample.world Sample.employee Sample.offered "open" true true in
  fst (jira_issue_updated Sample.no_report
         (mkEvent (Some (Sample.contribution "Blocked")) None
                  (Some (Sample.status_change "Open" "Blocked"))) w)
    = Ok (Body "no change necessary").
Proof.
  intros w.
  assert (Hrej : "Blocked" <> "Rejected") by discriminate.
  assert (Hlab : forall name, In name (map label_name Sample.repo_labels) ->
                              lower name <> lower "Blocked").
  { intros name [<- | [<- | [<- | [<- | []]]]]; discriminate. }
  destruct (unlabelled_status_needs_no_change (py := ascii_runtime) Sample.no_report
              (mkEvent (Some (Sample.contribution "Blocked")) None
                       (Some (Sample.status_change "Open" "Blocked")))
              (Sample.contribution "Blocked") (Sample.status_change "Open" "Blocked")
              (mkItem "status" "Open" "Blocked") [] w (Sample.resolved w)
              (PStr "edx/edx-platform") Sample.repo_labels
              eq_refl eq_refl eq_refl eq_refl eq_refl eq_refl eq_refl eq_refl
              eq_refl eq_refl Hrej Hlab)
    as [Hrun _].
  now rewrite Hrun.
Defined.

Lemma rejected_and_labelled_witness :
  let w := Sample.world Sample.employee Sample.offered "open" true true in
  fst (jira_issue_updated Sample.no_report
         (mkEvent (Some (Sample.contribution "Rejected")) None
                  (Some (Sample.status_change "Open" "Rejected"))) w)
    = Ok (Body ("Closed PR #7" ++ newline
                  ++ "Changed labels of PR #7 to ['bug', 'rejected']")).
Proof.
  intros w.
  pose (catalog := mkRequest github GET (Path "/repos/edx/edx-platform/labels") NoJson).
  pose proof (rejected_and_labelled (py := ascii_runtime) Sample.no_report
                (mkEvent (Some (Sample.contribution "Rejected")) None
                         (Some (Sample.status_change "Open" "Rejected")))
                (Sample.contribution "Rejected") (Sample.status_change "Open" "Rejected")
                (mkItem "status" "Open" "Rejected") [] w (Sample.resolved w)
                (snd (jira_issue_rejected (Sample.contribution "Rejected")
                        (sent (Sample.resolved w) [catalog])))
                (PStr "edx/edx-platform") Sample.repo_labels (Ok "Closed PR #7")
                eq_refl eq_refl eq_refl eq_refl eq_refl eq_refl eq_refl eq_refl
                eq_refl eq_refl eq_refl eq_refl eq_refl) as Hrun.
  cbv beta iota in Hrun. rewrite Hrun. reflexivity.
Defined.

Lemma status_changed_writes_labels_only_witness :
  let w := Sample.world Sample.employee Sample.offered "open" true true in
  let run := jira_issue_status_changed (Sample.contribution "Merged")
               (Sample.status_change "Open" "Merged") w in
  exists l, calls (snd run) = (calls w ++ l)%list /\
            label_patch_at_most (writes l) /\
            (forall msg, fst run = Ok msg -> writes l <> []).
Proof.
  intros w run.
  exact (status_changed_writes_labels_only (py := ascii_runtime)
           (Sample.contribution "Merged") (Sample.status_change "Open" "Merged")
           w (fst run) (snd run) (surjective_pairing run)).
Defined.

Lemma rejected_writes_comment_and_close_witness :
  let w := Sample.world Sample.employee Sample.offered "open" false true in
  let run := jira_issue_rejected (Sample.contribution "Rejected") w in
  exists l, calls (snd run) = (calls w ++ l)%list /\
            comment_and_close_at_most (writes l) /\
            (forall e, fst run = Raise e -> writes l <> [] ->
                       exists msg, e = RequestException msg).
Proof.
  intros w run.
  exact (rejected_writes_comment_and_close (py := ascii_runtime)
           (Sample.contribution "Rejected") w (fst run) (snd run) (surjective_pairing run)).
Defined.

Lemma update_closes_only_on_rejected_witness :
  let w := Sample.world Sample.employee Sample.offered "open" true true in
  let event := mkEvent (Some (Sample.contribution "Merged")) None
                       (Some (Sample.status_change "Open" "Merged")) in
  exists l, calls (snd (jira_issue_updated Sample.no_report event w)) = (calls w ++ l)%list /\
            label_patch_at_most (writes l).
Proof.
  intros w event.
  destruct (update_closes_only_on_rejected (py := ascii_runtime) Sample.no_report event
              eq_refl w _ _ (surjective_pairing _))
    as (l & Hcalls & a & b & Hab & Ha & Hb & Hrej).
  exists l. split; [exact Hcalls|].
  destruct a as [|q a].
  - now rewrite Hab.
  - destruct Hrej as (changelog & first & rest & Hlog & Hitems & Hto); [discriminate|].
    injection Hlog as <-. injection Hitems as <- _. discriminate.
Defined.

Lemma created_writes_one_transition_witness :
  let w := Sample.world Sample.employee Sample.offered "open" true true in
  let event := mkEvent (Some (Sample.mobile_issue "Needs Triage")) None None in
  exists pre post,
    calls (snd (jira_issue_created event w)) = (calls w ++ pre ++ [post])%list /\
    map verb pre = [GET; GET] /\
    post = mkRequest jira POST
             (Url (Sample.jira_url "/rest/api/2/issue/10004/transitions"))
             (TransitionJson "11") /\
    ok (remote w (calls w ++ pre)%list post) = true /\
    fst (jira_issue_created event w) = Ok (Body "Transitioned to Open").
Proof.
  intros w event.
  destruct (created_writes_one_transition (py := ascii_runtime) event) as [Hshape Hanswer].
  destruct (Hshape w _ _ (surjective_pairing _)) as (l & Hcalls & _).
  assert (Hl : l = skipn 0 (calls (snd (jira_issue_created event w)))).
  { rewrite Hcalls. reflexivity. }
  assert (Hw : writes l <> []).
  { rewrite Hl. vm_compute. discriminate. }
  destruct (Hanswer w _ _ l (surjective_pairing _) Hcalls Hw)
    as (pre & post & Hsplit & Hpre & Hpost & Hr).
  exists pre, post.
  assert (Hlast : (pre ++ [post])%list
                  = (firstn 2 (calls (snd (jira_issue_created event w)))
                       ++ [mkRequest jira POST
                             (Url (Sample.jira_url "/rest/api/2/issue/10004/transitions"))
                             (TransitionJson "11")])%list).
  { rewrite <- Hsplit, Hl. vm_compute. reflexivity. }
  apply app_inj_tail in Hlast. destruct Hlast as [Epre Epost].
  split; [now rewrite Hcalls, Hsplit|].
  split; [rewrite Epre; vm_compute; reflexivity|].
  split; [exact Epost|].
  assert (Hok : ok (remote w (calls w ++ pre)%list post) = true).
  { rewrite Epre, Epost. vm_compute. reflexivity. }
  split; [exact Hok|].
  rewrite Hr, Hok. reflexivity.
Defined.

Lemma rescan_of_triaged_issues_witness :
  let w := Sample.world Sample.employee Sample.offered "open" true true in
  fst (jira_rescan_issues Sample2.search POST None w)
    = Ok (Outcomes [("MOB-4", "ignored"); ("OSPR-1", "ignored")] 200) /\
  calls (snd (jira_rescan_issues Sample2.search POST None w))
    = [Sample2.search_request; Sample2.search_request].
Proof.
  intros w.
  assert (Hall : Forall (fun issue => status_name issue <> "Needs Triage")
                        [Sample.mobile_issue "Open"; Sample.contribution "Merged"]).
  { repeat constructor; discriminate. }
  destruct (rescan_of_triaged_issues (py := ascii_runtime) Sample2.search None
              w (sent w [Sample2.search_request])
              (sent w [Sample2.search_request; Sample2.search_request])
              (Yield (Sample.mobile_issue "Open")
                 (_ <- send Sample2.search_request ;;
                  ret (Yield (Sample.contribution "Merged") (ret Stop))))
              [Sample.mobile_issue "Open"; Sample.contribution "Merged"]
              eq_refl eq_refl Hall)
    as [Hrun _].
  rewrite Hrun. split; reflexivity.
Defined.

Lemma issue_url_of_pull_url_witness :
  str_replace "pulls" "issues" ("/repos/" ++ "edx/edx-platform" ++ "/pulls/" ++ "7")
    = "/repos/" ++ "edx/edx-platform" ++ "/issues/" ++ "7".
Proof.
  exact (issue_url_of_pull_url "edx/edx-platform" "7" eq_refl eq_refl).
Defined.

Lemma link_needs_directory_names_witness :
  let answers := Sample.answers Sample.employee Sample.offered "open" true true in
  let w := mkWorld answers [] (Some [("Summary", "summary")]) [] in
  let w' := mkWorld answers [] (Some [("Repo", Sample.repo_field)]) [] in
  github_pr_url (Sample.subtask "Open") w = (Raise (KeyError "Repo"), w) /\
  github_pr_url (Sample.contribution "Open") w' = (Raise (KeyError "PR Number"), w').
Proof.
  intros answers w w'. split.
  - exact (proj1 (link_needs_directory_names (py := ascii_runtime)
                    (Sample.subtask "Open") w w [("Summary", "summary")])
                 eq_refl eq_refl).
  - exact (proj2 (link_needs_directory_names (py := ascii_runtime)
                    (Sample.contribution "Open") w' w' [("Repo", Sample.repo_field)])
                 Sample.repo_field eq_refl eq_refl eq_refl (or_introl eq_refl)).
Defined.

Lemma jira_issue_fetched_once_witness :
  let w := Sample.world Sample.employee Sample.offered "open" true true in
  exists resp w1,
    get_jira_issue "OSPR-404" w = (Ok resp, w1) /\
    get_jira_issue "OSPR-404" w1 = (Ok resp, w1).
Proof.
  intros w.
  destruct (jira_issue_fetched_once "OSPR-404" w) as (resp & w1 & Hrun & Hagain).
  exists resp, w1. split; [exact Hrun | exact (Hagain w1 eq_refl)].
Defined.

Lemma exempt_groups_closed_form_witness :
  exempt_loop "MOB" ["jira-users"; "clarice"] = true /\
  exempt_loop "MOB" ["clarice"; "jira-users"] = exempt_loop "MOB" ["jira-users"; "clarice"].
Proof.
  destruct (exempt_groups_closed_form "MOB" ["jira-users"; "clarice"]) as [Hform Horder].
  split.
  - apply Hform. right. split; [reflexivity|]. left. simpl. tauto.
  - apply Horder. intros g. simpl. tauto.
Defined.
